(** * Paper search and PDF download pipeline

    A shallow embedding of [src/paper_search.py] and [src/pdf_downloader.py].

    - Python [str] values are [string]s whose characters are the code points
      0..255; the character classes below are those of CPython on that range.
    - Python [int] values are [Z].
    - Every Python function runs in the monad [M]: it threads the [world]
      (the history of external requests and the download directory) and
      either returns a value or raises an exception.  [try]/[except] blocks
      are the combinator [try_except], placed where the source places them.
    - The network, the clock and the HTML scraper are an [environment]
      record of functions of the request history, so that every theorem
      holds whatever the outside world answers. *)

From Stdlib Require Import ZArith Lia Ascii String List Bool Permutation Sorted.
From stdpp Require Import base strings gmap list pretty.

Set Default Proof Using "Type".
Open Scope Z_scope.

(* ===================================================================== *)
(** * Python primitives *)
(* ===================================================================== *)

Module Py.

Definition chars (s : string) : list ascii := list_ascii_of_string s.
Definition str (l : list ascii) : string := string_of_list_ascii l.

Definition code (c : ascii) : N := N_of_ascii c.

Definition in_range (lo hi : N) (c : ascii) : bool :=
  ((lo <=? code c) && (code c <=? hi))%N.

(** [str.isspace] and the regular-expression class [\s]. *)
Definition isspace (c : ascii) : bool :=
  in_range 9 13 c || in_range 28 32 c || (code c =? 133)%N || (code c =? 160)%N.

Definition isdecimal (c : ascii) : bool := in_range 48 57 c.

(** The regular-expression class [\w]: alphanumeric or underscore. *)
Definition isword (c : ascii) : bool :=
  isdecimal c || in_range 65 90 c || (code c =? 95)%N || in_range 97 122 c
  || (code c =? 170)%N || in_range 178 179 c || (code c =? 181)%N
  || in_range 185 186 c || in_range 188 190 c
  || in_range 192 214 c || in_range 216 246 c || in_range 248 255 c.

(** [str.lower] on one character. *)
Definition lower_char (c : ascii) : ascii :=
  if in_range 65 90 c || in_range 192 214 c || in_range 216 222 c
  then ascii_of_N (code c + 32) else c.

Definition lower (s : string) : string := str (map lower_char (chars s)).

(** [re.sub('[^...]', '', s)]: keep the characters of the class. *)
Definition keep (cls : ascii -> bool) (s : string) : string :=
  str (List.filter cls (chars s)).

(** [re.sub(r'\s+', r, s)] on a character list: every maximal run of
    whitespace becomes the single character [r], emitted at the last
    character of the run. *)
Fixpoint sub_ws_runs (r : ascii) (l : list ascii) : list ascii :=
  match l with
  | [] => []
  | c :: l' =>
      if isspace c then
        match l' with
        | c' :: _ => if isspace c' then sub_ws_runs r l' else r :: sub_ws_runs r l'
        | [] => [r]
        end
      else c :: sub_ws_runs r l'
  end.

Fixpoint lstrip_by (p : ascii -> bool) (l : list ascii) : list ascii :=
  match l with
  | [] => []
  | c :: l' => if p c then lstrip_by p l' else l
  end.

Fixpoint rstrip_by (p : ascii -> bool) (l : list ascii) : list ascii :=
  match l with
  | [] => []
  | c :: l' =>
      match rstrip_by p l' with
      | [] => if p c then [] else [c]
      | r => c :: r
      end
  end.

Definition strip_by (p : ascii -> bool) (l : list ascii) : list ascii :=
  lstrip_by p (rstrip_by p l).

(** [s.strip()] *)
Definition strip (s : string) : string := str (strip_by isspace (chars s)).

(** [s.split()]: the maximal runs of non-whitespace characters.  The
    auxiliary function returns the word that is still open at the front of
    the input and the completed words after it. *)
Definition close_word (w : list ascii) (ws : list (list ascii)) : list (list ascii) :=
  match w with [] => ws | _ => w :: ws end.

Fixpoint split_open (l : list ascii) : list ascii * list (list ascii) :=
  match l with
  | [] => ([], [])
  | c :: l' =>
      let (w, ws) := split_open l' in
      if isspace c then ([], close_word w ws) else (c :: w, ws)
  end.

Definition split_ws (l : list ascii) : list (list ascii) :=
  let (w, ws) := split_open l in close_word w ws.

(** [' '.join(words)] *)
Definition join_sp (ws : list (list ascii)) : list ascii :=
  match ws with
  | [] => []
  | w :: ws' => w ++ concat (map (cons " "%char) ws')
  end.

(** [s[:n]] for a literal [n >= 0]. *)
Definition take (n : nat) (s : string) : string := str (firstn n (chars s)).

(** [l[:n]] for a Python integer [n], which counts from the end when
    negative. *)
Definition slice_to {A} (n : Z) (l : list A) : list A :=
  if 0 <=? n then firstn (Z.to_nat n) l
  else firstn (length l - Z.to_nat (- n)) l.

Fixpoint starts_with (p l : list ascii) : bool :=
  match p, l with
  | [], _ => true
  | _ :: _, [] => false
  | a :: p', b :: l' => Ascii.eqb a b && starts_with p' l'
  end.

(** [s.endswith(suffix)] *)
Definition endswith (suffix s : string) : bool :=
  starts_with (rev (chars suffix)) (rev (chars s)).

(** [sub in s] *)
Fixpoint contains_at_some (p l : list ascii) : bool :=
  starts_with p l ||
  match l with
  | [] => false
  | _ :: l' => contains_at_some p l'
  end.

Definition contains (sub s : string) : bool := contains_at_some (chars sub) (chars s).

(** [s.split('/')[-1]]: what follows the last separator. *)
Fixpoint last_segment (sep : ascii) (l : list ascii) : list ascii :=
  match l with
  | [] => []
  | c :: l' =>
      if existsb (Ascii.eqb sep) l' then last_segment sep l'
      else if Ascii.eqb c sep then l' else l
  end.

(** Truthiness of a string, and of a value that may be [None]. *)
Definition truthy (s : string) : bool :=
  match s with EmptyString => false | _ => true end.

Definition truthy_opt (o : option string) : bool :=
  match o with Some s => truthy s | None => false end.

(** Whether a string holds the character of code 0, which no file name
    may hold. *)
Definition has_null (s : string) : bool :=
  existsb (fun c => (code c =? 0)%N) (chars s).

(** [int(s)] in base 10 ([None] stands for [ValueError]): surrounding
    whitespace is dropped, one sign is allowed, and digits may be separated
    by single underscores. *)
Definition int_space (c : ascii) : bool :=
  in_range 9 13 c || (code c =? 32)%N || (code c =? 133)%N || (code c =? 160)%N.

Definition digit_val (c : ascii) : Z := Z.of_N (code c) - 48.

Fixpoint int_digits (acc : Z) (after_underscore : bool) (l : list ascii) : option Z :=
  match l with
  | [] => if after_underscore then None else Some acc
  | c :: l' =>
      if isdecimal c then int_digits (10 * acc + digit_val c) false l'
      else if Ascii.eqb c "_" && negb after_underscore then int_digits acc true l'
      else None
  end.

Definition int_unsigned (l : list ascii) : option Z :=
  match l with
  | c :: _ => if isdecimal c then int_digits 0 false l else None
  | [] => None
  end.

Definition int (s : string) : option Z :=
  match strip_by int_space (chars s) with
  | c :: l =>
      if Ascii.eqb c "-" then Z.opp <$> int_unsigned l
      else if Ascii.eqb c "+" then int_unsigned l
      else int_unsigned (c :: l)
  | [] => None
  end.

(** Shapes used to describe the result of [split]: a list of characters
    without whitespace, a non-empty word, and the words each behind one
    space. *)
Definition spaceless (w : list ascii) : Prop := Forall (fun c => isspace c = false) w.

Definition word (v : list ascii) : Prop :=
  exists c v', v = c :: v' /\ isspace c = false.

Definition spaced (ws : list (list ascii)) : list ascii :=
  concat (map (cons " "%char) ws).

End Py.

(* ===================================================================== *)
(** * Exceptions, the world and the monad of Python computations *)
(* ===================================================================== *)

(** The three classes the handlers of the source tell apart.  An exception
    carries the text [str(e)].  [RequestException] stands for the
    [requests] exceptions other than [Timeout]; [OtherException] for every
    other [Exception]. *)
Inductive exn : Type :=
| Timeout (msg : string)
| RequestException (msg : string)
| OtherException (msg : string).

Inductive exc (A : Type) : Type :=
| Ret (a : A)
| Raise (e : exn).
Arguments Ret {A} a.
Arguments Raise {A} e.

(** What the program asks of the outside world, in order. *)
Inductive event : Type :=
| EvArxivQuery (search_query : string) (max_results : Z)
| EvScholarQuery (query : string) (limit : Z) (year : string)
| EvGet (url : string) (timeout : Z)
| EvSleep (seconds : Z).

(** A name in the download directory is a regular file with its bytes, or
    a symbolic link into a directory that is not there: [glob] lists it,
    [exists] is false for it, and [stat] and [open] on it raise. *)
Inductive dir_entry : Type :=
| RegularFile (content : list Byte.byte)
| DanglingLink.

(** [dir = None] when the download directory itself does not exist. *)
Record world : Type := World {
  trace : list event;
  dir : option (gmap string dir_entry)
}.

Definition M (A : Type) : Type := world -> world * exc A.

Definition ret {A} (a : A) : M A := fun w => (w, Ret a).
Definition raise {A} (e : exn) : M A := fun w => (w, Raise e).

Definition bind {A B} (m : M A) (k : A -> M B) : M B :=
  fun w =>
    match m w with
    | (w', Ret a) => k a w'
    | (w', Raise e) => (w', Raise e)
    end.

(** [try: body  except ...: handler]: the effects of [body] up to the
    exception stay. *)
Definition try_except {A} (body : M A) (handler : exn -> M A) : M A :=
  fun w =>
    match body w with
    | (w', Ret a) => (w', Ret a)
    | (w', Raise e) => handler e w'
    end.

(** A computation without effects that may raise. *)
Definition lift {A} (r : exc A) : M A := fun w => (w, r).

Definition emit (e : event) : M unit :=
  fun w => (World (trace w ++ [e]) (dir w), Ret tt).

Declare Scope py_scope.
Delimit Scope py_scope with py.
Notation "x <- m ;; k" := (bind m (fun x => k))
  (at level 100, m at next level, right associativity) : py_scope.
Notation "m ;;; k" := (bind m (fun _ => k))
  (at level 100, right associativity) : py_scope.
Open Scope py_scope.

(** [for x in xs: body(x)] collecting what each iteration appends. *)
Fixpoint for_each {A B} (body : A -> M (list B)) (xs : list A) : M (list B) :=
  match xs with
  | [] => ret []
  | x :: xs' =>
      ys <- body x ;;
      zs <- for_each body xs' ;;
      ret (ys ++ zs)
  end.

(** The value a computation returned, and the world it left. *)
Definition returned {A} (r : world * exc A) : option A :=
  match r with (_, Ret a) => Some a | (_, Raise _) => None end.


Definition world_after {A} (r : world * exc A) : world := fst r.

(* ===================================================================== *)
(** * Records exchanged with the providers *)
(* ===================================================================== *)

(** The dictionary built for a paper.  [None] in [title], [year] or
    [pdf_url] is a missing key (for [pdf_url] also the value [None]): the
    code reads the three with [dict.get]. *)
Record Paper : Type := mkPaper {
  title : option string;
  authors : list string;
  year : option Z;
  abstract : string;
  pdf_url : option string;
  source : string
}.

(** A field of a JSON object: missing, [null], or a value. *)
Inductive field (A : Type) : Type :=
| Absent
| Null
| Val (a : A).
Arguments Absent {A}.
Arguments Null {A}.
Arguments Val {A} a.

(** [obj.get(key, default)]: [None] when the key is there with [null]. *)
Definition get_default {A} (f : field A) (default : A) : option A :=
  match f with
  | Absent => Some default
  | Null => None
  | Val a => Some a
  end.

(** [obj.get(key)] *)
Definition get {A} (f : field A) : option A :=
  match f with
  | Val a => Some a
  | _ => None
  end.

(** One [<link>] element of an Atom entry, with its attributes. *)
Record atom_link : Type := mkLink {
  link_type : option string;
  link_href : option string
}.

(** One [<entry>] of the ArXiv feed as BeautifulSoup presents it: the text
    of the first element of each name, when there is one. *)
Record atom_entry : Type := mkEntry {
  entry_title : option string;
  entry_summary : option string;
  entry_author_names : list (option string);
  entry_published : option string;
  entry_links : list atom_link;
  entry_id : option string
}.

Record scholar_author : Type := mkScholarAuthor {
  author_name : field string
}.

Record scholar_pdf : Type := mkScholarPdf {
  pdf_link : field string
}.

(** One item of the [data] array of Semantic Scholar. *)
Record scholar_item : Type := mkItem {
  item_title : field string;
  item_abstract : field string;
  item_year : field Z;
  item_authors : field (list scholar_author);
  item_openAccessPdf : field scholar_pdf
}.

Record scholar_response : Type := mkScholarResponse {
  response_data : field (list scholar_item)
}.

(** An HTTP response to a streamed GET. *)
Record response : Type := mkResponse {
  (** [str(e)] of the [HTTPError] that [raise_for_status] raises, if any *)
  status_error : option string;
  (** the [content-type] header *)
  header_content_type : option string;
  (** [response.text], or the exception reading it raises *)
  text : exc string;
  (** the chunks [iter_content] yields ... *)
  chunks : list (list Byte.byte);
  (** ... and the exception it raises after them, if the stream breaks *)
  stream_error : option exn
}.

(** The outside world.  Each answer may depend on everything asked so far.
    [arxiv_feed] and [scholar_search] stand for [session.get],
    [raise_for_status] and the parse of the body; [extract_pdf_from_html]
    for the scraper of [pdf_downloader.py], which catches its own
    exceptions and returns [None] then. *)
Record environment : Type := mkEnv {
  arxiv_feed : list event -> string -> Z -> exc (list atom_entry);
  scholar_search : list event -> string -> Z -> string -> exc scholar_response;
  http_get : list event -> string -> Z -> exc response;
  time_now : list event -> Z;
  extract_pdf_from_html : string -> string -> option string
}.

(* ===================================================================== *)
(** * paper_search.py *)
(* ===================================================================== *)

Module PaperSearch.

(** [PaperSearcher.__init__]: the configuration of a searcher. *)
Record PaperSearcher : Type := mkSearcher {
  max_papers : Z;
  min_year : Z
}.

Definition clean_class (c : ascii) : bool :=
  Py.isword c || Py.isspace c
  || existsb (Ascii.eqb c) (Py.chars "-.,()[]").

(** [PaperSearcher._clean_text] on a string. *)
Definition clean_text (text : string) : string :=
  if negb (Py.truthy text) then ""%string
  else
    let text := Py.str (Py.sub_ws_runs " " (Py.chars (Py.strip text))) in
    Py.keep clean_class text.

(** [_clean_text] on a value that may be [None]. *)
Definition clean_text_opt (text : option string) : string :=
  match text with
  | Some t => clean_text t
  | None => ""%string
  end.

Section WithEnvironment.
Context (env : environment).

(** ** ArxivSearcher *)

(** The year of an entry: 2024 unless [int(published.text[:4])] succeeds. *)
Definition entry_year (published : option string) : Z :=
  match published with
  | Some text =>
      match Py.int (Py.take 4 text) with
      | Some y => y
      | None => 2024
      end
  | None => 2024
  end.

(** The first link of type [application/pdf] decides: its [href], which may
    be missing. *)
Fixpoint first_pdf_link (links : list atom_link) : option string :=
  match links with
  | [] => None
  | link :: links' =>
      if bool_decide (link_type link = Some "application/pdf"%string)
      then link_href link
      else first_pdf_link links'
  end.

Definition entry_pdf_url (entry : atom_entry) : option string :=
  let pdf_url := first_pdf_link (entry_links entry) in
  if negb (Py.truthy_opt pdf_url) then
    match entry_id entry with
    | Some id_text =>
        let arxiv_id := Py.str (Py.last_segment "/" (Py.chars id_text)) in
        Some ("https://arxiv.org/pdf/" +:+ arxiv_id +:+ ".pdf")
    | None => pdf_url
    end
  else pdf_url.

(** The body of the loop over the entries: the papers it appends.  Nothing
    in it raises on a parsed entry, so the inner handler is never entered. *)
Definition arxiv_entry_papers (self : PaperSearcher) (entry : atom_entry) : list Paper :=
  let title := match entry_title entry with
               | Some t => clean_text t
               | None => clean_text ""
               end in
  let summary := match entry_summary entry with
                 | Some t => clean_text t
                 | None => clean_text ""
                 end in
  let authors := omap (fun name => clean_text <$> name) (entry_author_names entry) in
  let year := entry_year (entry_published entry) in
  if year <? min_year self then []
  else
    let pdf_url := entry_pdf_url entry in
    if Py.truthy title && Py.truthy_opt pdf_url then
      [ mkPaper (Some title) authors (Some year) summary pdf_url "ArXiv" ]
    else [].

(** [ArxivSearcher.search_papers] *)
Definition arxiv_search_papers (self : PaperSearcher) (query : string) : M (list Paper) :=
  try_except
    (let search_query := "all:" +:+ query in
     entries <- (fun w => let w' := World (trace w ++ [EvArxivQuery search_query (max_papers self)]) (dir w) in
                          (w', arxiv_feed env (trace w) search_query (max_papers self))) ;;
     ret (flat_map (arxiv_entry_papers self) (Py.slice_to (max_papers self) entries)))
    (fun _ => ret []).

(** ** SemanticScholarSearcher *)

Definition type_error {A} (msg : string) : exc A := Raise (OtherException msg).

(** The author loop of one item; iterating over [None] raises. *)
Definition scholar_authors (item : scholar_item) : exc (list string) :=
  match get_default (item_authors item) [] with
  | Some l =>
      Ret (omap (fun a => match get (author_name a) with
                          | Some n => if Py.truthy n then Some (clean_text n) else None
                          | None => None
                          end) l)
  | None => type_error "'NoneType' object is not iterable"
  end.

Definition scholar_pdf_url (item : scholar_item) : option string :=
  match get (item_openAccessPdf item) with
  | Some open_access =>
      match get (pdf_link open_access) with
      | Some url => if Py.truthy url then Some url else None
      | None => None
      end
  | None => None
  end.

(** [title and pdf_url and year >= self.min_year]: the comparison is only
    evaluated when the first two are true, and raises on [None]. *)
Definition scholar_keep (self : PaperSearcher) (title : string)
    (pdf_url : option string) (year : option Z) : exc bool :=
  if negb (Py.truthy title) then Ret false
  else if negb (Py.truthy_opt pdf_url) then Ret false
  else match year with
       | Some y => Ret (min_year self <=? y)
       | None => type_error "'>=' not supported between instances of 'NoneType' and 'int'"
       end.

(** The body of the inner [try] for one item. *)
Definition scholar_item_try (self : PaperSearcher) (item : scholar_item) : exc (list Paper) :=
  let title := clean_text_opt (get_default (item_title item) "") in
  let abstract := clean_text_opt (get_default (item_abstract item) "") in
  let year := get_default (item_year item) 2024 in
  match scholar_authors item with
  | Raise e => Raise e
  | Ret authors =>
      let pdf_url := scholar_pdf_url item in
      match scholar_keep self title pdf_url year with
      | Raise e => Raise e
      | Ret true => Ret [ mkPaper (Some title) authors year abstract pdf_url "Semantic Scholar" ]
      | Ret false => Ret []
      end
  end.

(** One iteration: [except Exception: continue]. *)
Definition scholar_item_papers (self : PaperSearcher) (item : scholar_item) : list Paper :=
  match scholar_item_try self item with
  | Ret ps => ps
  | Raise _ => []
  end.

(** [SemanticScholarSearcher.search_papers] *)
Definition scholar_search_papers (self : PaperSearcher) (query : string) : M (list Paper) :=
  try_except
    (let year_param := pretty (min_year self) +:+ "-" in
     data <- (fun w => let w' := World (trace w ++ [EvScholarQuery query (max_papers self) year_param]) (dir w) in
                       (w', scholar_search env (trace w) query (max_papers self) year_param)) ;;
     items <- lift (match get_default (response_data data) [] with
                    | Some l => Ret (Py.slice_to (max_papers self) l)
                    | None => type_error "'NoneType' object is not subscriptable"
                    end) ;;
     ret (flat_map (scholar_item_papers self) items))
    (fun _ => ret []).

(** ** MultiSourceSearcher *)

Inductive searcher : Type :=
| ArxivSearcher (cfg : PaperSearcher)
| SemanticScholarSearcher (cfg : PaperSearcher).

Definition search_papers_of (s : searcher) (query : string) : M (list Paper) :=
  match s with
  | ArxivSearcher cfg => arxiv_search_papers cfg query
  | SemanticScholarSearcher cfg => scholar_search_papers cfg query
  end.

Record MultiSourceSearcher : Type := mkMulti {
  multi_max_papers : Z;
  multi_min_year : Z;
  searchers : list searcher
}.

(** [MultiSourceSearcher.__init__] *)
Definition multi_init (max_papers min_year : Z) : MultiSourceSearcher :=
  mkMulti max_papers min_year
    [ ArxivSearcher (mkSearcher (max_papers / 2) min_year);
      SemanticScholarSearcher (mkSearcher (max_papers / 2) min_year) ].

(** The simplified title two papers are compared by. *)
Definition simple_title (paper : Paper) : string :=
  let title := Py.lower (default ""%string (title paper)) in
  let simple_title := Py.keep (fun c => Py.isword c || Py.isspace c) title in
  Py.str (Py.join_sp (Py.split_ws (Py.chars simple_title))).

(** The loop of [_remove_duplicates], with its set of seen titles. *)
Fixpoint remove_duplicates_from (seen_titles : gset string) (papers : list Paper) : list Paper :=
  match papers with
  | [] => []
  | paper :: papers' =>
      let t := simple_title paper in
      if bool_decide (t ∉ seen_titles)
      then paper :: remove_duplicates_from ({[ t ]} ∪ seen_titles) papers'
      else remove_duplicates_from seen_titles papers'
  end.

(** [MultiSourceSearcher._remove_duplicates] *)
Definition remove_duplicates (papers : list Paper) : list Paper :=
  remove_duplicates_from ∅ papers.

(** The sort key [x.get('year', 0)]. *)
Definition year_key (p : Paper) : Z := default 0 (year p).

(** [list.sort(key=..., reverse=True)] is the stable sort in descending
    order of the key; stability fixes its result, computed here by
    insertion from the right. *)
Fixpoint insert_desc (p : Paper) (sorted : list Paper) : list Paper :=
  match sorted with
  | [] => [p]
  | q :: sorted' =>
      if year_key p <? year_key q then q :: insert_desc p sorted'
      else p :: sorted
  end.

Definition sort_by_year_desc (papers : list Paper) : list Paper :=
  foldr insert_desc [] papers.

(** The loop over the searchers, each call in its own [try]; the pause is
    inside the [try], after the results are added. *)
Definition gather_from (query : string) (s : searcher) : M (list Paper) :=
  try_except
    (papers <- search_papers_of s query ;;
     emit (EvSleep 1) ;;;
     ret papers)
    (fun _ => ret []).

Definition gather (self : MultiSourceSearcher) (query : string) : M (list Paper) :=
  for_each (gather_from query) (searchers self).

(** [MultiSourceSearcher.search_papers] *)
Definition multi_search_papers (self : MultiSourceSearcher) (query : string) : M (list Paper) :=
  all_papers <- gather self query ;;
  let unique_papers := remove_duplicates all_papers in
  let unique_papers := sort_by_year_desc unique_papers in
  ret (Py.slice_to (multi_max_papers self) unique_papers).

End WithEnvironment.

(** ** The properties the specification names *)

(** What is required of a paper a provider client returns. *)
Definition retained (min_year : Z) (p : Paper) : Prop :=
  (exists t, title p = Some t /\ t <> ""%string) /\
  (exists u, pdf_url p = Some u /\ u <> ""%string) /\
  (exists y, year p = Some y /\ min_year <= y).

(** The normalization of a title in the words of the specification:
    lower-case it, remove what is neither a word character nor whitespace,
    turn every run of whitespace into one space. *)
Definition normalize_as_stated (title : string) : string :=
  let lowered := Py.lower title in
  let stripped := Py.keep (fun c => Py.isword c || Py.isspace c) lowered in
  Py.str (Py.sub_ws_runs " " (Py.chars stripped)).

Definition stated_title (paper : Paper) : string :=
  normalize_as_stated (default ""%string (title paper)).

(** First-wins deduplication in the words of the specification: a paper
    stays exactly when no paper before it in the list has its key. *)
Fixpoint keep_first_after (key : Paper -> string) (earlier papers : list Paper) : list Paper :=
  match papers with
  | [] => []
  | paper :: papers' =>
      (if existsb (fun q => String.eqb (key q) (key paper)) earlier then [] else [paper])
      ++ keep_first_after key (earlier ++ [paper]) papers'
  end.

Definition keep_first (key : Paper -> string) (papers : list Paper) : list Paper :=
  keep_first_after key [] papers.

(** Newest first, and the papers of one year. *)
Definition newest_first (p q : Paper) : Prop := year_key q <= year_key p.

Definition of_year (y : Z) (papers : list Paper) : list Paper :=
  List.filter (fun p => year_key p =? y) papers.

End PaperSearch.

(* ===================================================================== *)
(** * pdf_downloader.py *)
(* ===================================================================== *)

Module PdfDownloader.

(** [PDFDownloader.__init__] keeps the directory and the timeout. *)
Record PDFDownloader : Type := mkDownloader {
  download_dir : string;
  timeout : Z
}.

(** [(success, file_path, message)] *)
Definition outcome : Type := bool * option string * string.

Record DownloadResult : Type := mkResult {
  result_paper : Paper;
  success : bool;
  file_path : option string;
  message : string;
  index : Z;
  total : Z
}.

(** The values of the statistics dictionary; a float is kept as its number
    of hundredths, which is what [round(x, 2)] leaves of it. *)
Inductive pyval : Type :=
| VInt (z : Z)
| VFloat (hundredths : Z)
| VNames (names : list string).

(** A dictionary literal, keys in the order written. *)
Definition pydict : Type := list (string * pyval).

Fixpoint dict_get (d : pydict) (key : string) : option pyval :=
  match d with
  | [] => None
  | (k, v) :: d' => if bool_decide (k = key) then Some v else dict_get d' key
  end.

(** ** The download directory *)

(** [self.download_dir / filename] *)
Definition path_join (self : PDFDownloader) (filename : string) : string :=
  download_dir self +:+ "/" +:+ filename.

Definition no_such_file {A} (path : string) : M A :=
  raise (OtherException ("[Errno 2] No such file or directory: '" +:+ path +:+ "'")).

(** [self.download_dir.exists()] *)
Definition dir_exists : M bool :=
  fun w => (w, Ret (bool_decide (is_Some (dir w)))).

Definition lookup_entry (w : world) (filename : string) : option dir_entry :=
  d ← dir w; d !! filename.

(** [file_path.exists()] follows links. *)
Definition path_exists (filename : string) : M bool :=
  fun w => (w, Ret (match lookup_entry w filename with
                    | Some (RegularFile _) => true
                    | _ => false
                    end)).

(** [open(file_path, 'wb')]: a path with a null character is refused with
    a [ValueError] before the file system is asked; otherwise the file is
    there and empty afterwards. *)
Definition open_wb (self : PDFDownloader) (filename : string) : M unit :=
  fun w =>
    if Py.has_null (path_join self filename)
    then raise (OtherException "embedded null byte") w
    else
      match dir w with
      | None => no_such_file (path_join self filename) w
      | Some d =>
          match d !! filename with
          | Some DanglingLink => no_such_file (path_join self filename) w
          | _ => (World (trace w) (Some (<[filename := RegularFile []]> d)), Ret tt)
          end
      end.

(** [f.write(chunk)] on the file opened above. *)
Definition write (filename : string) (chunk : list Byte.byte) : M unit :=
  fun w =>
    match dir w with
    | Some d =>
        match d !! filename with
        | Some (RegularFile content) =>
            (World (trace w) (Some (<[filename := RegularFile (content ++ chunk)]> d)), Ret tt)
        | _ => (w, Ret tt)
        end
    | None => (w, Ret tt)
    end.

(** [path.stat().st_size] *)
Definition stat_size (self : PDFDownloader) (filename : string) : M Z :=
  fun w =>
    match lookup_entry w filename with
    | Some (RegularFile content) => (w, Ret (Z.of_nat (length content)))
    | _ => no_such_file (path_join self filename) w
    end.

(** [file_path.unlink()] *)
Definition unlink (self : PDFDownloader) (filename : string) : M unit :=
  fun w =>
    match dir w with
    | Some d =>
        match d !! filename with
        | Some _ => (World (trace w) (Some (delete filename d)), Ret tt)
        | None => no_such_file (path_join self filename) w
        end
    | None => no_such_file (path_join self filename) w
    end.

(** [self.download_dir.glob('*.pdf')]: the names with that ending, in the
    order the directory lists them. *)
Definition glob_pdf (d : gmap string dir_entry) : list string :=
  List.filter (Py.endswith ".pdf") (map fst (map_to_list d)).

Section WithEnvironment.
Context (env : environment).

(** [int(time.time())] *)
Definition now : M Z := fun w => (w, Ret (time_now env (trace w))).

(** [self.session.get(url, timeout=self.timeout, stream=True)] *)
Definition session_get (self : PDFDownloader) (url : string) : M response :=
  fun w => (World (trace w ++ [EvGet url (timeout self)]) (dir w),
            http_get env (trace w) url (timeout self)).

(** [response.raise_for_status()] *)
Definition raise_for_status (r : response) : M unit :=
  match status_error r with
  | Some msg => raise (RequestException msg)
  | None => ret tt
  end.

Definition illegal_char (c : ascii) : bool :=
  existsb (N.eqb (Py.code c)) [60; 62; 58; 34; 47; 92; 124; 63; 42]%N.

(** [PDFDownloader._create_safe_filename] with [max_length = 100] *)
Definition create_safe_filename (title : string) : M string :=
  let max_length := 100%nat in
  let safe_title := Py.keep (fun c => negb (illegal_char c)) title in
  let safe_title := Py.str (Py.sub_ws_runs "_" (Py.chars (Py.strip safe_title))) in
  let safe_title :=
    if (max_length <? String.length safe_title)%nat then Py.take max_length safe_title
    else safe_title in
  let safe_title :=
    Py.str (Py.rstrip_by (fun c => Ascii.eqb c "." || Ascii.eqb c " ") (Py.chars safe_title)) in
  if negb (Py.truthy safe_title) then
    t <- now ;;
    ret ("paper_" +:+ pretty t)
  else ret safe_title.

(** Lines 56-70: the request, and the second request when the first
    answer is an HTML page.  [inl] is the early return. *)
Definition fetch (self : PDFDownloader) (pdf_url : string) : M (outcome + response) :=
  response <- session_get self pdf_url ;;
  raise_for_status response ;;;
  let content_type := Py.lower (default ""%string (header_content_type response)) in
  if negb (Py.contains "pdf" content_type) && negb (Py.endswith ".pdf" pdf_url) then
    if Py.contains "text/html" content_type then
      html <- lift (text response) ;;
      let pdf_url := extract_pdf_from_html env html pdf_url in
      if Py.truthy_opt pdf_url then
        response <- session_get self (default ""%string pdf_url) ;;
        raise_for_status response ;;;
        ret (inr response)
      else ret (inl (false, None, "Could not find PDF link in HTML"%string))
    else ret (inr response)
  else ret (inr response).

Fixpoint write_chunks (filename : string) (cs : list (list Byte.byte)) : M unit :=
  match cs with
  | [] => ret tt
  | chunk :: cs' =>
      (match chunk with [] => ret tt | _ => write filename chunk end) ;;;
      write_chunks filename cs'
  end.

(** Lines 73-76: the file is opened, then the chunks are written as they
    arrive; an exception of the stream leaves what was written. *)
Definition save (self : PDFDownloader) (filename : string) (r : response) : M unit :=
  open_wb self filename ;;;
  write_chunks filename (chunks r) ;;;
  match stream_error r with
  | Some e => raise e
  | None => ret tt
  end.

(** The body of the [try] of [download_paper]. *)
Definition download_paper_try (self : PDFDownloader) (title pdf_url : string) : M outcome :=
  safe_title <- create_safe_filename title ;;
  let filename := safe_title +:+ ".pdf" in
  let file_path := path_join self filename in
  there <- path_exists filename ;;
  if there : bool then ret (true, Some file_path, "Already exists: " +:+ filename)
  else
    fetched <- fetch self pdf_url ;;
    match fetched with
    | inl early => ret early
    | inr response =>
        save self filename response ;;;
        size <- stat_size self filename ;;
        if size <? 1024 then
          unlink self filename ;;;
          ret (false, None, "Downloaded file too small (probably not a PDF)"%string)
        else ret (true, Some file_path, "Downloaded: " +:+ filename)
    end.

(** The three handlers, in the order of the source. *)
Definition download_paper_except (title : string) (e : exn) : M outcome :=
  match e with
  | Timeout _ => ret (false, None, "Timeout downloading: " +:+ Py.take 30 title +:+ "...")
  | RequestException msg => ret (false, None, "Download error: " +:+ Py.take 50 msg +:+ "...")
  | OtherException msg => ret (false, None, "Unexpected error: " +:+ Py.take 50 msg +:+ "...")
  end.

(** [PDFDownloader.download_paper] *)
Definition download_paper (self : PDFDownloader) (paper : Paper) : M outcome :=
  let pdf_url := pdf_url paper in
  let title := default "Unknown"%string (title paper) in
  if negb (Py.truthy_opt pdf_url) then ret (false, None, "No PDF URL provided"%string)
  else
    try_except
      (download_paper_try self title (default ""%string pdf_url))
      (download_paper_except title).

(** ** download_papers *)

Section WithCallback.
(** The caller's callback acts on the caller's own state [CB]: it leaves
    a state and returns or raises.  A batch therefore runs in the world
    and in that state, and ends with the results or with an exception. *)
Context {CB : Type}.
Context (progress_callback :
           option (Z -> Z -> DownloadResult -> CB -> CB * exc unit)).

(** [if progress_callback: progress_callback(current, total, result)] *)
Definition notify (current total_papers : Z) (result : DownloadResult) (cb : CB)
    : CB * exc unit :=
  match progress_callback with
  | Some f => f current total_papers result cb
  | None => (cb, Ret tt)
  end.

(** The loop of [download_papers] from position [i] (counted from 0).
    Neither the download nor the callback is inside a [try]: an exception
    of either ends the loop. *)
Fixpoint download_loop (self : PDFDownloader) (total_papers i : Z)
    (papers : list Paper) (cb : CB) (w : world)
    : world * CB * exc (list DownloadResult) :=
  match papers with
  | [] => (w, cb, Ret [])
  | paper :: papers' =>
      match download_paper self paper w with
      | (w1, Raise e) => (w1, cb, Raise e)
      | (w1, Ret o) =>
          let result :=
            mkResult paper (fst (fst o)) (snd (fst o)) (snd o) (i + 1) total_papers in
          match notify (i + 1) total_papers result cb with
          | (cb1, Raise e) => (w1, cb1, Raise e)
          | (cb1, Ret _) =>
              match (if i <? total_papers - 1 then emit (EvSleep 1) else ret tt) w1 with
              | (w2, Raise e) => (w2, cb1, Raise e)
              | (w2, Ret _) =>
                  match download_loop self total_papers (i + 1) papers' cb1 w2 with
                  | (w3, cb3, Ret rest) => (w3, cb3, Ret (result :: rest))
                  | (w3, cb3, Raise e) => (w3, cb3, Raise e)
                  end
              end
          end
      end
  end.

(** [PDFDownloader.download_papers] *)
Definition download_papers (self : PDFDownloader) (papers : list Paper) (cb : CB)
    (w : world) : world * CB * exc (list DownloadResult) :=
  let total_papers := Z.of_nat (length papers) in
  download_loop self total_papers 0 papers cb w.

End WithCallback.

End WithEnvironment.

(** ** get_download_stats *)

(** [round(n / d, 2)] in hundredths, ties to even. *)
Definition round2_div (n d : Z) : Z :=
  let q := (100 * n) / d in
  let r := (100 * n) mod d in
  if 2 * r <? d then q
  else if d <? 2 * r then q + 1
  else if Z.even q then q else q + 1.

Fixpoint stat_all (self : PDFDownloader) (names : list string) : M (list Z) :=
  match names with
  | [] => ret []
  | f :: names' =>
      size <- stat_size self f ;;
      sizes <- stat_all self names' ;;
      ret (size :: sizes)
  end.

(** [PDFDownloader.get_download_stats] *)
Definition get_download_stats (self : PDFDownloader) : M pydict :=
  there <- dir_exists ;;
  if negb there then
    ret [ ("total_files"%string, VInt 0); ("total_size"%string, VInt 0) ]
  else
    fun w =>
      let pdf_files := glob_pdf (default ∅ (dir w)) in
      (sizes <- stat_all self pdf_files ;;
       let total_size := foldr Z.add 0 sizes in
       ret [ ("total_files"%string, VInt (Z.of_nat (length pdf_files)));
             ("total_size"%string, VInt total_size);
             ("total_size_mb"%string, VFloat (round2_div total_size (1024 * 1024)));
             ("files"%string, VNames pdf_files) ]) w.








(** A name of the directory that is a regular file. *)
Definition regular_in (d : gmap string dir_entry) (f : string) : Prop :=
  exists content, d !! f = Some (RegularFile content).

(** A failure carries no path and a success carries one. *)
Definition consistent (o : outcome) : Prop :=
  fst (fst o) = true <-> is_Some (snd (fst o)).

End PdfDownloader.

(* ===================================================================== *)
(** * Concrete worlds, used by the examples below *)
(* ===================================================================== *)

Module Fixtures.
Import PaperSearch PdfDownloader.

Definition timed_out {A} : exc A := Raise (Timeout "Read timed out.").

(** No provider and no server answers. *)
Definition offline : environment :=
  mkEnv (fun _ _ _ => timed_out) (fun _ _ _ _ => timed_out)
        (fun _ _ _ => timed_out) (fun _ => 1700000000) (fun _ _ => None).

Definition entry_2023 : atom_entry :=
  mkEntry (Some "Message  Passing"%string) (Some "An older survey."%string)
          [Some "A. Author"%string] (Some "2023-11-30T09:00:00Z"%string)
          [mkLink (Some "text/html"%string) (Some "http://arxiv.org/abs/2311.00001v1"%string)]
          (Some "http://arxiv.org/abs/2311.00001v1"%string).

Definition entry_2024 : atom_entry :=
  mkEntry (Some "Graph Networks !"%string) (Some "A survey."%string)
          [Some "A. Author"%string; None] (Some "2024-02-01T09:00:00Z"%string)
          [mkLink (Some "application/pdf"%string) (Some "http://arxiv.org/pdf/2402.00001v1"%string)]
          (Some "http://arxiv.org/abs/2402.00001v1"%string).

Definition item_same_title : scholar_item :=
  mkItem (Val "Graph Networks"%string) Null (Val 2025)
         (Val [mkScholarAuthor (Val "A. Author"%string)])
         (Val (mkScholarPdf (Val "https://example.org/gn.pdf"%string))).

Definition item_without_year : scholar_item :=
  mkItem (Val "Deep Sets"%string) Absent Null (Val [])
         (Val (mkScholarPdf (Val "https://example.org/ds.pdf"%string))).

Definition item_other : scholar_item :=
  mkItem (Val "Deep Sets"%string) Absent (Val 2024) Absent
         (Val (mkScholarPdf (Val "https://example.org/ds.pdf"%string))).

Definition small_body : list (list Byte.byte) :=
  [ [Byte.x25; Byte.x50; Byte.x44; Byte.x46]; []; [Byte.x0a] ].

Definition small_response : response :=
  mkResponse None (Some "application/pdf"%string) (Ret ""%string) small_body None.

(** Both providers answer; every download is five bytes long. *)
Definition online : environment :=
  mkEnv (fun _ _ _ => Ret [entry_2023; entry_2024])
        (fun _ _ _ _ => Ret (mkScholarResponse (Val [item_same_title; item_without_year; item_other])))
        (fun _ _ _ => Ret small_response)
        (fun _ => 1700000000) (fun _ _ => None).

Definition full_response : response :=
  mkResponse None (Some "application/pdf"%string) (Ret ""%string)
             [repeat Byte.x20 1000; repeat Byte.x20 24] None.

Definition html_response : response :=
  mkResponse None (Some "text/html; charset=utf-8"%string)
             (Ret "<html><body>No paper here.</body></html>"%string) [] None.

Definition broken_response : response :=
  mkResponse None (Some "application/pdf"%string) (Ret ""%string) small_body
             (Some (RequestException "Connection broken: IncompleteRead")).

Definition gone_response : response :=
  mkResponse (Some "404 Client Error: Not Found for url: https://example.org/gone.pdf"%string)
             (Some "text/html"%string) (Ret ""%string) [] None.

(** A server with one answer per address. *)
Definition serve (url : string) : exc response :=
  if bool_decide (url = "https://example.org/full.pdf"%string) then Ret full_response
  else if bool_decide (url = "https://example.org/page"%string) then Ret html_response
  else if bool_decide (url = "https://example.org/broken.pdf"%string) then Ret broken_response
  else if bool_decide (url = "https://example.org/gone.pdf"%string) then Ret gone_response
  else timed_out.

Definition served : environment :=
  mkEnv (fun _ _ _ => timed_out) (fun _ _ _ _ => timed_out)
        (fun _ url _ => serve url) (fun _ => 1700000000) (fun _ _ => None).

Definition at_url (t url : string) : Paper :=
  mkPaper (Some t) [] (Some 2024) "" (Some url) "ArXiv".

Definition downloader : PDFDownloader := mkDownloader "downloads" 30.

Definition empty_dir : world := World [] (Some ∅).
Definition missing_dir : world := World [] None.

Definition stored : list Byte.byte := [Byte.x25; Byte.x50; Byte.x44; Byte.x46].

(** The directory holds [Survey.pdf]. *)
Definition survey_stored : world :=
  World [] (Some {[ "Survey.pdf"%string := RegularFile stored ]}).

(** The directory holds a link [a.pdf] whose target is gone. *)
Definition broken_link : world :=
  World [] (Some {[ "a.pdf"%string := DanglingLink ]}).

Definition survey : Paper :=
  mkPaper (Some "Survey"%string) [] (Some 2024) "" (Some "https://example.org/s.pdf"%string) "ArXiv".

Definition survey_without_url : Paper :=
  mkPaper (Some "Survey"%string) [] (Some 2024) "" None "ArXiv".

Definition survey_empty_url : Paper :=
  mkPaper (Some "Survey"%string) [] (Some 2024) "" (Some ""%string) "ArXiv".

(** What the clients make of [entry_2024], [item_same_title], [item_other]
    and [entry_2023]: the title of the first keeps the space that stood
    before the removed exclamation mark. *)
Definition trailing_space : Paper :=
  mkPaper (Some "Graph Networks "%string) ["A. Author"%string] (Some 2024) "A survey."
          (Some "http://arxiv.org/pdf/2402.00001v1"%string) "ArXiv".

Definition no_trailing_space : Paper :=
  mkPaper (Some "Graph Networks"%string) ["A. Author"%string] (Some 2025) ""
          (Some "https://example.org/gn.pdf"%string) "Semantic Scholar".

Definition deep_sets : Paper :=
  mkPaper (Some "Deep Sets"%string) [] (Some 2024) ""
          (Some "https://example.org/ds.pdf"%string) "Semantic Scholar".

Definition message_passing : Paper :=
  mkPaper (Some "Message Passing"%string) ["A. Author"%string] (Some 2023) "An older survey."
          (Some "https://arxiv.org/pdf/2311.00001v1.pdf"%string) "ArXiv".

(** A callback that records the positions it is called with. *)
Definition record_progress
    : option (Z -> Z -> DownloadResult -> list (Z * Z) -> list (Z * Z) * exc unit) :=
  Some (fun current total _ log => (log ++ [(current, total)], Ret tt)).



(** A paper whose title holds the character of code 0. *)
Definition null_title : Paper :=
  mkPaper (Some (String "a" (String "000" "b"))) [] (Some 2024) ""
          (Some "https://example.org/full.pdf"%string) "ArXiv".

End Fixtures.


(* ===================================================================== *)
(** * Further vocabulary for the properties of the second part *)
(* ===================================================================== *)

Module Vocabulary.
Import PaperSearch PdfDownloader.

(** The characters [_clean_text] lets through, with a plain space as the
    only whitespace. *)
Definition clean_char (c : ascii) : Prop :=
  clean_class c = true /\ (Py.isspace c = true -> c = " "%char).

(** The title an Atom entry is given. *)
Definition entry_clean_title (entry : atom_entry) : string :=
  clean_text (default ""%string (entry_title entry)).

Definition is_get (e : event) : bool :=
  match e with EvGet _ _ => true | _ => false end.


(** The name [_create_safe_filename] derives from the title alone, before
    it falls back on the clock. *)
Definition sanitized_title (title : string) : string :=
  let safe_title := Py.keep (fun c => negb (illegal_char c)) title in
  let safe_title := Py.str (Py.sub_ws_runs "_" (Py.chars (Py.strip safe_title))) in
  let safe_title :=
    if (100 <? String.length safe_title)%nat then Py.take 100 safe_title
    else safe_title in
  Py.str (Py.rstrip_by (fun c => Ascii.eqb c "." || Ascii.eqb c " ") (Py.chars safe_title)).

(** A character a file name may hold. *)
Definition filename_char (c : ascii) : Prop :=
  illegal_char c = false /\ Py.isspace c = false.

(** The size [stat] reports for a name of the directory. *)
Definition size_in (d : gmap string dir_entry) (f : string) : Z :=
  match d !! f with
  | Some (RegularFile content) => Z.of_nat (length content)
  | _ => 0
  end.

(** Two worlds agree on every name of the directory but [f], and the
    directory is there in both or in neither. *)
Definition same_but (f : string) (w w' : world) : Prop :=
  (is_Some (dir w') <-> is_Some (dir w)) /\
  (forall g, g <> f -> lookup_entry w' g = lookup_entry w g).

(** What a step may do: add at most [n] requests to the trace, and change
    the directory at the name [f] only. *)
Definition effect (f : string) (n : nat) (w w' : world) : Prop :=
  (exists gets, trace w' = trace w ++ gets /\
                Forall (fun e => is_get e = true) gets /\
                (length gets <= n)%nat) /\
  same_but f w w'.

End Vocabulary.

(* ===================================================================== *)
(** * Further concrete records and worlds *)
(* ===================================================================== *)

Module Samples.
Import PaperSearch PdfDownloader Fixtures.

Definition item_null_authors : scholar_item :=
  mkItem (Val "Deep Sets"%string) Absent (Val 2024) Null
         (Val (mkScholarPdf (Val "https://example.org/ds.pdf"%string))).

Definition item_undated : scholar_item :=
  mkItem (Val "Deep Sets"%string) Absent Absent (Val [])
         (Val (mkScholarPdf (Val "https://example.org/ds.pdf"%string))).

Definition entry_undated : atom_entry :=
  mkEntry (Some "Pointer Networks"%string) None [] None []
          (Some "http://arxiv.org/abs/1506.03134v2"%string).

(** ArXiv answers; the request to Semantic Scholar fails. *)
Definition arxiv_only : environment :=
  mkEnv (fun _ _ _ => Ret [entry_2023; entry_2024]) (fun _ _ _ _ => timed_out)
        (fun _ _ _ => timed_out) (fun _ => 1700000000) (fun _ _ => None).

Definition full_paper : Paper := at_url "Full" "https://example.org/full.pdf".
Definition page_paper : Paper := at_url "Page" "https://example.org/page".
Definition slow_paper : Paper := at_url "Slow" "https://example.org/slow.pdf".

(** The world after [Full.pdf] was fetched into the empty directory. *)
Definition full_stored : world :=
  World [EvGet "https://example.org/full.pdf" 30]
        (Some {[ "Full.pdf"%string := RegularFile (repeat Byte.x20 1024) ]}).

(** A directory with a stored paper and a file of notes. *)
Definition with_notes : world :=
  World [] (Some (<[ "notes.txt"%string := RegularFile stored ]>
                    {[ "Survey.pdf"%string := RegularFile stored ]})).

End Samples.
(* ===================================================================== *)
(** * Facts about the primitives *)
(* ===================================================================== *)

Module PyFacts.
Import Py.

Lemma str_chars (s : string) : str (chars s) = s.
Proof. apply string_of_list_ascii_of_string. Qed.

Lemma chars_str (l : list ascii) : chars (str l) = l.
Proof. apply list_ascii_of_string_of_list_ascii. Qed.

Lemma truthy_true (s : string) : truthy s = true <-> s <> ""%string.
Proof. destruct s; simpl; split; congruence. Qed.

Lemma truthy_opt_false (o : option string) :
  truthy_opt o = false <-> o = None \/ o = Some ""%string.
Proof.
  destruct o as [[|c s]|]; simpl; split; intros H; auto; try discriminate.
  - destruct H as [H|H]; discriminate.
Qed.

Lemma truthy_opt_true (o : option string) :
  truthy_opt o = true <-> exists s, o = Some s /\ s <> ""%string.
Proof.
  destruct o as [s|]; simpl.
  - rewrite truthy_true. split.
    + intros H. exists s. auto.
    + intros (s' & [= <-] & H). exact H.
  - split; [discriminate | intros (s & H & _); discriminate].
Qed.

Lemma slice_to_length {A} (n : Z) (l : list A) :
  0 <= n -> Z.of_nat (length (slice_to n l)) <= n.
Proof.
  intros Hn. unfold slice_to.
  destruct (Z.leb_spec 0 n) as [_|Hlt]; [|lia].
  rewrite length_firstn. lia.
Qed.

Lemma slice_to_prefix {A} (n : Z) (l : list A) : slice_to n l `prefix_of` l.
Proof.
  unfold slice_to. destruct (0 <=? n).
  - exists (skipn (Z.to_nat n) l). symmetry. apply firstn_skipn.
  - exists (skipn (length l - Z.to_nat (- n)) l). symmetry. apply firstn_skipn.
Qed.

End PyFacts.

Example py_int_year : Py.int (Py.take 4 "2024-05-01T10:00:00Z") = Some 2024.
Proof. reflexivity. Qed.

Example py_int_not_a_year : Py.int (Py.take 4 "n/a") = None.
Proof. reflexivity. Qed.

Example py_int_underscore : Py.int " +2_0 " = Some 20 /\ Py.int "2__0" = None.
Proof. split; reflexivity. Qed.

Example py_split_join :
  Py.str (Py.join_sp (Py.split_ws (Py.chars "  a  b c "))) = "a b c"%string.
Proof. reflexivity. Qed.

Example py_slice_negative : Py.slice_to (-1) [1; 2; 3] = [1; 2].
Proof. reflexivity. Qed.

Example py_last_segment :
  Py.str (Py.last_segment "/" (Py.chars "http://arxiv.org/abs/2402.00001v1")) = "2402.00001v1"%string.
Proof. reflexivity. Qed.

(* ===================================================================== *)
(** * The PDF downloader *)
(* ===================================================================== *)

Module PdfDownloaderFacts.
Import PdfDownloader PyFacts.

Section WithEnvironment.
Context (env : environment).

(** The file name depends on the title and, for an unusable title, on the
    clock; computing it changes nothing. *)
Lemma create_safe_filename_pure (title : string) (w : world) :
  exists safe, create_safe_filename env title w = (w, Ret safe).
Proof.
  unfold create_safe_filename.
  destruct (negb (Py.truthy _)); eauto.
Qed.

(** [session.get] only adds to the trace. *)
Lemma session_get_dir (self : PDFDownloader) (url : string) (w w' : world) r :
  session_get env self url w = (w', r) ->
  dir w' = dir w /\ trace w' = trace w ++ [EvGet url (timeout self)].
Proof. unfold session_get. intros [= <- _]. auto. Qed.

Lemma raise_for_status_world (r : response) (w w' : world) x :
  raise_for_status r w = (w', x) -> w' = w.
Proof.
  unfold raise_for_status. destruct (status_error r); intros [= <- _]; reflexivity.
Qed.

(** The requests of [fetch] leave the directory alone. *)
Lemma fetch_dir (self : PDFDownloader) (url : string) (w w' : world) r :
  fetch env self url w = (w', r) -> dir w' = dir w.
Proof.
  unfold fetch, bind, lift, ret. intros H.
  destruct (session_get env self url w) as [w1 [r1|e1]] eqn:E1;
    apply session_get_dir in E1 as [Hd1 _]; [|by inversion H; subst].
  destruct (raise_for_status r1 w1) as [w2 [[]|e2]] eqn:E2;
    apply raise_for_status_world in E2; subst w2; [|by inversion H; subst].
  destruct (_ && _); [|by inversion H; subst].
  destruct (Py.contains _ _); [|by inversion H; subst].
  destruct (text r1) as [html|e3]; [|by inversion H; subst].
  destruct (Py.truthy_opt _); [|by inversion H; subst].
  destruct (session_get env self _ w1) as [w3 [r3|e3]] eqn:E3;
    apply session_get_dir in E3 as [Hd3 _]; [|inversion H; subst; congruence].
  destruct (raise_for_status r3 w3) as [w4 [[]|e4]] eqn:E4;
    apply raise_for_status_world in E4; subst w4; inversion H; subst; congruence.
Qed.

(** Where [download_paper] stops before it asks the network for anything. *)
Lemma download_paper_existing (self : PDFDownloader) (paper : Paper) (w : world)
    (safe : string) (content : list Byte.byte) :
  Py.truthy_opt (pdf_url paper) = true ->
  create_safe_filename env (default "Unknown"%string (title paper)) w = (w, Ret safe) ->
  lookup_entry w (safe +:+ ".pdf") = Some (RegularFile content) ->
  download_paper env self paper w =
    (w, Ret (true, Some (path_join self (safe +:+ ".pdf")),
             "Already exists: " +:+ (safe +:+ ".pdf"))).
Proof.
  intros Hurl Hname Hthere.
  unfold download_paper. rewrite Hurl. simpl.
  unfold try_except, download_paper_try, bind.
  rewrite Hname. unfold path_exists. rewrite Hthere. reflexivity.
Qed.

Lemma consistent_failure (msg : string) : consistent (false, None, msg).
Proof. split; simpl; [discriminate | intros [? [=]]]. Qed.

Lemma consistent_success (path msg : string) : consistent (true, Some path, msg).
Proof. split; simpl; eauto. Qed.

Lemma fetch_consistent (self : PDFDownloader) (url : string) (w w' : world) (o : outcome) :
  fetch env self url w = (w', Ret (inl o)) -> consistent o.
Proof.
  unfold fetch, bind, lift, ret. intros H.
  repeat match type of H with
         | context [match ?x with _ => _ end] => destruct x eqn:?
         end;
    inversion H; subst; apply consistent_failure.
Qed.

Lemma download_paper_try_consistent (self : PDFDownloader) (title url : string)
    (w w' : world) (o : outcome) :
  download_paper_try env self title url w = (w', Ret o) -> consistent o.
Proof.
  unfold download_paper_try, bind. intros H.
  destruct (create_safe_filename env title w) as [w1 [safe|?]]; [|discriminate].
  destruct (path_exists _ w1) as [w2 [[]|?]]; [| |discriminate].
  { inversion H; subst. apply consistent_success. }
  destruct (fetch env self url w2) as [w3 [[early|r]|?]] eqn:Hfetch; [| |discriminate].
  { inversion H; subst. eapply fetch_consistent, Hfetch. }
  destruct (save self _ r w3) as [w4 [[]|?]]; [|discriminate].
  destruct (stat_size self _ w4) as [w5 [size|?]]; [|discriminate].
  destruct (size <? 1024).
  - destruct (unlink self _ w5) as [w6 [[]|?]]; [|discriminate].
    inversion H; subst. apply consistent_failure.
  - inversion H; subst. apply consistent_success.
Qed.

Lemma download_paper_except_returns (title : string) (e : exn) (w : world) :
  exists msg, download_paper_except title e w = (w, Ret (false, None, msg)).
Proof. destruct e; simpl; unfold ret; eauto. Qed.

(** [download_paper] returns in every world, with a consistent triple. *)
Lemma download_paper_returns (self : PDFDownloader) (paper : Paper) (w : world) :
  exists w' o, download_paper env self paper w = (w', Ret o) /\ consistent o.
Proof.
  unfold download_paper.
  destruct (negb (Py.truthy_opt (pdf_url paper))).
  { exists w, (false, None, "No PDF URL provided"%string).
    split; [reflexivity | apply consistent_failure]. }
  unfold try_except.
  destruct (download_paper_try env self _ _ w) as [w1 [o|e]] eqn:Htry.
  - exists w1, o. split; [reflexivity|].
    eapply download_paper_try_consistent, Htry.
  - destruct (download_paper_except_returns (default "Unknown"%string (title paper)) e w1)
      as [msg Hmsg].
    exists w1, (false, None, msg). split; [exact Hmsg | apply consistent_failure].
Qed.

(** ** Saving the body *)

Lemma write_chunks_content (filename : string) (cs : list (list Byte.byte)) :
  forall (tr : list event) (d : gmap string dir_entry) (content : list Byte.byte),
    d !! filename = Some (RegularFile content) ->
    write_chunks filename cs (World tr (Some d)) =
      (World tr (Some (<[filename := RegularFile (content ++ concat cs)]> d)), Ret tt).
Proof.
  induction cs as [|chunk cs IH]; intros tr d content Hd; simpl.
  - unfold ret. rewrite app_nil_r, insert_id by exact Hd. reflexivity.
  - unfold bind. destruct chunk as [|b chunk].
    + unfold ret. rewrite (IH tr d content Hd). reflexivity.
    + unfold write. simpl. rewrite Hd.
      rewrite (IH tr _ (content ++ b :: chunk)) by apply lookup_insert_eq.
      rewrite insert_insert_eq, <- app_assoc. reflexivity.
Qed.

(** A stream that ends well leaves exactly its bytes in a new file. *)
Lemma save_complete (self : PDFDownloader) (filename : string) (r : response)
    (tr : list event) (d : gmap string dir_entry) :
  Py.has_null (path_join self filename) = false ->
  d !! filename = None ->
  stream_error r = None ->
  save self filename r (World tr (Some d)) =
    (World tr (Some (<[filename := RegularFile (concat (chunks r))]> d)), Ret tt).
Proof.
  intros Hname Hnew Hstream. unfold save, bind, open_wb. rewrite Hname. simpl. rewrite Hnew.
  rewrite (write_chunks_content filename (chunks r) tr _ [])
    by apply lookup_insert_eq.
  rewrite Hstream, insert_insert_eq. reflexivity.
Qed.

(** ** The batch *)

Section WithCallback.
Context {CB : Type}.
Context (progress_callback : option (Z -> Z -> DownloadResult -> CB -> CB * exc unit)).







End WithCallback.





(** ** The statistics *)



(** ** The claims about the downloader *)

(** C9. A paper whose [pdf_url] is missing or empty is answered
    [(False, None, "No PDF URL provided")], and the world is the one the
    call started in: nothing was requested and the directory was not
    touched. *)
Theorem download_paper_without_url (self : PDFDownloader) (paper : Paper) (w : world) :
  pdf_url paper = None \/ pdf_url paper = Some ""%string ->
  download_paper env self paper w = (w, Ret (false, None, "No PDF URL provided"%string)).
Proof.
  intros Hurl. apply truthy_opt_false in Hurl.
  unfold download_paper. rewrite Hurl. reflexivity.
Qed.

(** C10. [download_paper] returns a triple, and the path is present in it
    exactly when the success flag is true. *)
Theorem download_paper_path_iff_success (self : PDFDownloader) (paper : Paper) (w : world) :
  exists (w' : world) (ok : bool) (path : option string) (msg : string),
    download_paper env self paper w = (w', Ret (ok, path, msg)) /\
    (ok = true <-> is_Some path).
Proof.
  destruct (download_paper_returns self paper w) as (w' & [[ok path] msg] & Hrun & Hc).
  exists w', ok, path, msg. split; [exact Hrun | exact Hc].
Qed.

(** C6, as amended.  For a paper with a non-empty [pdf_url] whose file name
    is that of a regular file of the directory, the answer is
    [(True, path, "Already exists: <filename>")] and the world is unchanged:
    the trace has no new request and the directory is the same map, so the
    stored file has the bytes it had. *)
Theorem download_paper_already_exists (self : PDFDownloader) (paper : Paper) (w : world)
    (url safe : string) (content : list Byte.byte) :
  pdf_url paper = Some url -> url <> ""%string ->
  create_safe_filename env (default "Unknown"%string (title paper)) w = (w, Ret safe) ->
  lookup_entry w (safe +:+ ".pdf") = Some (RegularFile content) ->
  download_paper env self paper w =
    (w, Ret (true, Some (path_join self (safe +:+ ".pdf")),
             "Already exists: " +:+ (safe +:+ ".pdf"))).
Proof.
  intros Hurl Hne Hname Hthere.
  eapply download_paper_existing; [|exact Hname|exact Hthere].
  apply truthy_opt_true. eauto.
Qed.



(** C8, on the code.  Without a directory the dictionary has the two keys
    [total_files] and [total_size] only; with an empty directory it has
    all four, with zero values.  Neither call raises. *)
Theorem get_download_stats_nothing_stored (self : PDFDownloader) (tr : list event) :
  (exists d,
     get_download_stats self (World tr None) = (World tr None, Ret d) /\
     d = [ ("total_files"%string, VInt 0); ("total_size"%string, VInt 0) ] /\
     dict_get d "total_size_mb" = None /\
     dict_get d "files" = None) /\
  (exists d,
     get_download_stats self (World tr (Some ∅)) = (World tr (Some ∅), Ret d) /\
     dict_get d "total_files" = Some (VInt 0) /\
     dict_get d "total_size_mb" = Some (VFloat 0) /\
     dict_get d "files" = Some (VNames [])).
Proof.
  split.
  - eexists. split; [reflexivity|]. repeat split; reflexivity.
  - exists [ ("total_files"%string, VInt 0); ("total_size"%string, VInt 0);
             ("total_size_mb"%string, VFloat 0); ("files"%string, VNames []) ].
    split; [|repeat split; reflexivity].
    unfold get_download_stats, bind, dir_exists, glob_pdf. simpl.
    rewrite map_to_list_empty. reflexivity.
Qed.

End WithEnvironment.

(** ** The theorems at work *)

Import Fixtures.

Lemma download_paper_without_url_witness :
  (pdf_url survey_empty_url = None \/ pdf_url survey_empty_url = Some ""%string) /\
  download_paper online downloader survey_empty_url survey_stored
    = (survey_stored, Ret (false, None, "No PDF URL provided"%string)).
Proof.
  split; [right; reflexivity|].
  apply download_paper_without_url. right; reflexivity.
Defined.

Lemma download_paper_already_exists_witness :
  download_paper online downloader survey survey_stored =
    (survey_stored, Ret (true, Some "downloads/Survey.pdf"%string,
                         "Already exists: Survey.pdf"%string)).
Proof.
  apply (download_paper_already_exists online downloader survey survey_stored
           "https://example.org/s.pdf" "Survey" stored);
    [reflexivity | discriminate | reflexivity | reflexivity].
Defined.

(** C6 as it is stated asks for the success answer whenever the file is
    there; a paper without [pdf_url] is turned away first. *)
Lemma download_paper_already_exists_needs_url :
  ~ (forall (paper : Paper) (w : world) (safe : string) (content : list Byte.byte),
       create_safe_filename online (default "Unknown"%string (title paper)) w = (w, Ret safe) ->
       lookup_entry w (safe +:+ ".pdf") = Some (RegularFile content) ->
       download_paper online downloader paper w =
         (w, Ret (true, Some (path_join downloader (safe +:+ ".pdf")),
                  "Already exists: " +:+ (safe +:+ ".pdf")))).
Proof.
  intros H.
  specialize (H survey_without_url survey_stored "Survey"%string stored eq_refl eq_refl).
  assert (download_paper online downloader survey_without_url survey_stored
          = (survey_stored, Ret (false, None, "No PDF URL provided"%string))) as Hrun
    by reflexivity.
  rewrite Hrun in H. discriminate H.
Qed.





(** ** The other ways out of [download_paper] *)

Example download_paper_stored :
  returned (download_paper served downloader (at_url "Full" "https://example.org/full.pdf") empty_dir)
    = Some (true, Some "downloads/Full.pdf"%string, "Downloaded: Full.pdf"%string)
  /\ lookup_entry
       (world_after (download_paper served downloader
                       (at_url "Full" "https://example.org/full.pdf") empty_dir))
       "Full.pdf"
     = Some (RegularFile (repeat Byte.x20 1024)).
Proof. split; reflexivity. Qed.

Example download_paper_html_without_link :
  download_paper served downloader (at_url "Page" "https://example.org/page") empty_dir
    = (World [EvGet "https://example.org/page" 30] (Some ∅),
       Ret (false, None, "Could not find PDF link in HTML"%string)).
Proof. reflexivity. Qed.

Example download_paper_http_error :
  returned (download_paper served downloader (at_url "Gone" "https://example.org/gone.pdf") empty_dir)
    = Some (false, None,
            "Download error: 404 Client Error: Not Found for url: https://examp..."%string).
Proof. reflexivity. Qed.

Example download_paper_timeout :
  returned (download_paper served downloader
              (at_url "A title of more than thirty characters" "https://example.org/slow.pdf")
              empty_dir)
    = Some (false, None, "Timeout downloading: A title of more than thirty ch..."%string).
Proof. reflexivity. Qed.

(** A title with a null character: the file cannot be opened, and the
    last handler answers after the request. *)
Example download_paper_null_title :
  download_paper served downloader null_title empty_dir
    = (World [EvGet "https://example.org/full.pdf" 30] (Some ∅),
       Ret (false, None, "Unexpected error: embedded null byte..."%string)).
Proof. reflexivity. Qed.

Example download_paper_missing_directory :
  returned (download_paper served downloader
              (at_url "Full" "https://example.org/full.pdf") missing_dir)
    = Some (false, None,
            "Unexpected error: [Errno 2] No such file or directory: 'downloads/Fu..."%string).
Proof. reflexivity. Qed.

Example create_safe_filename_examples :
  returned (create_safe_filename served " a<b>: c/d.  . " empty_dir) = Some "ab_cd._"%string /\
  returned (create_safe_filename served " ..  " empty_dir) = Some "paper_1700000000"%string.
Proof. split; reflexivity. Qed.

Example download_papers_recorded :
  let run := download_papers served record_progress downloader
               [survey; survey_without_url; at_url "Page" "https://example.org/page"] []
               survey_stored in
  snd (fst run) = [(1, 3); (2, 3); (3, 3)] /\
  (exists results, snd run = Ret results /\ map success results = [true; false; false]) /\
  trace (fst (fst run)) = [EvSleep 1; EvSleep 1; EvGet "https://example.org/page" 30].
Proof. repeat split. eexists. split; reflexivity. Qed.

Example get_download_stats_one_file :
  returned (get_download_stats downloader survey_stored)
    = Some [ ("total_files"%string, VInt 1); ("total_size"%string, VInt 4);
             ("total_size_mb"%string, VFloat 0); ("files"%string, VNames ["Survey.pdf"%string]) ].
Proof. reflexivity. Qed.

Example round2_div_examples :
  round2_div 131072 (1024 * 1024) = 12 /\ round2_div 1572864 (1024 * 1024) = 150.
Proof. split; reflexivity. Qed.

End PdfDownloaderFacts.

(* ===================================================================== *)
(** * The searchers *)
(* ===================================================================== *)

Module PaperSearchFacts.
Import PaperSearch PyFacts.

(** ** Whitespace: [split] and [join] against runs and [strip] *)

Section Whitespace.
Import Py.

Lemma split_open_cons (c : ascii) (l : list ascii) :
  split_open (c :: l) =
    if isspace c then ([], close_word (fst (split_open l)) (snd (split_open l)))
    else (c :: fst (split_open l), snd (split_open l)).
Proof. simpl. destruct (split_open l). reflexivity. Qed.

Lemma split_open_shape (l : list ascii) :
  spaceless (fst (split_open l)) /\ Forall word (snd (split_open l)).
Proof.
  induction l as [|c l [IHw IHws]].
  - split; constructor.
  - rewrite split_open_cons. destruct (isspace c) eqn:Hc; simpl.
    + split; [constructor|].
      destruct (fst (split_open l)) as [|c' w'] eqn:Hw; simpl; [exact IHws|].
      constructor; [|exact IHws].
      exists c', w'. split; [reflexivity|]. by inversion IHw.
    + split; [constructor; assumption | exact IHws].
Qed.

Lemma rstrip_by_cons_keep (p : ascii -> bool) (c : ascii) (l : list ascii) :
  p c = false -> rstrip_by p (c :: l) = c :: rstrip_by p l.
Proof. intros Hc. simpl. rewrite Hc. by destruct (rstrip_by p l). Qed.

Lemma rstrip_by_cons_nonempty (p : ascii -> bool) (c : ascii) (l : list ascii) :
  rstrip_by p l <> [] -> rstrip_by p (c :: l) = c :: rstrip_by p l.
Proof. intros Hl. simpl. by destruct (rstrip_by p l). Qed.

(** Runs collapsed and the right end stripped: the open word, then every
    completed word behind one space. *)
Lemma rstrip_runs (l : list ascii) :
  rstrip_by isspace (sub_ws_runs " " l) =
    fst (split_open l) ++ spaced (snd (split_open l)).
Proof.
  induction l as [|c l IH]; [reflexivity|].
  rewrite split_open_cons.
  destruct (isspace c) eqn:Hc.
  - destruct l as [|c' l'].
    + simpl. rewrite Hc. reflexivity.
    + change (sub_ws_runs " " (c :: c' :: l'))
        with (if isspace c
              then if isspace c' then sub_ws_runs " " (c' :: l')
                   else " "%char :: sub_ws_runs " " (c' :: l')
              else c :: sub_ws_runs " " (c' :: l')).
      rewrite Hc. rewrite split_open_cons in IH |- *.
      destruct (isspace c') eqn:Hc'.
      * rewrite IH. reflexivity.
      * simpl fst in *. simpl snd in *.
        rewrite rstrip_by_cons_nonempty; rewrite IH; [reflexivity | discriminate].
  - assert (sub_ws_runs " " (c :: l) = c :: sub_ws_runs " " l) as ->
      by (simpl; rewrite Hc; reflexivity).
    rewrite rstrip_by_cons_keep by exact Hc. rewrite IH. reflexivity.
Qed.

(** [' '.join(s.split())] is [re.sub(r'\s+', ' ', s).strip()]. *)
Lemma join_split_strip (l : list ascii) :
  join_sp (split_ws l) = strip_by isspace (sub_ws_runs " " l).
Proof.
  unfold strip_by, split_ws. rewrite rstrip_runs.
  destruct (split_open_shape l) as [Hw Hws].
  destruct (split_open l) as [w ws]. simpl in *.
  destruct w as [|c w]; simpl.
  - destruct Hws as [|v vs (c & v' & -> & Hc) _]; [reflexivity|].
    unfold spaced. simpl. rewrite Hc. reflexivity.
  - inversion Hw as [|? ? Hc _]; subst. rewrite Hc. reflexivity.
Qed.

End Whitespace.

(** ** Deduplication *)

Section Deduplication.

Lemma existsb_same_key (key : Paper -> string) (earlier : list Paper) (k : string) :
  existsb (fun q => String.eqb (key q) k) earlier = true <-> k ∈ map key earlier.
Proof.
  rewrite existsb_exists, list_elem_of_In, in_map_iff.
  split; intros (q & H1 & H2); exists q.
  - apply String.eqb_eq in H2. auto.
  - split; [exact H2 | by apply String.eqb_eq].
Qed.

(** The set of seen titles of the code holds the keys of all the papers
    met so far, kept or not. *)
Lemma remove_duplicates_from_keep_first (papers : list Paper) :
  forall (seen : gset string) (earlier : list Paper),
    (forall k, k ∈ seen <-> k ∈ map simple_title earlier) ->
    remove_duplicates_from seen papers = keep_first_after simple_title earlier papers.
Proof.
  induction papers as [|paper papers IH]; intros seen earlier Hseen; [reflexivity|].
  simpl.
  destruct (existsb _ earlier) eqn:Hex.
  - apply existsb_same_key, Hseen in Hex.
    rewrite bool_decide_eq_false_2 by (intros Hn; exact (Hn Hex)).
    simpl. apply IH. intros k. rewrite map_app, elem_of_app, <- Hseen. simpl.
    rewrite list_elem_of_singleton. split; [auto | intros [H| ->]; assumption].
  - assert (simple_title paper ∉ seen) as Hnew.
    { intros Hin. apply Hseen, existsb_same_key in Hin. congruence. }
    rewrite bool_decide_eq_true_2 by exact Hnew.
    simpl. f_equal. apply IH. intros k.
    rewrite map_app, elem_of_app, <- Hseen. simpl.
    rewrite list_elem_of_singleton, elem_of_union, elem_of_singleton. tauto.
Qed.

Lemma remove_duplicates_keep_first (papers : list Paper) :
  remove_duplicates papers = keep_first simple_title papers.
Proof.
  apply remove_duplicates_from_keep_first. intros k. simpl.
  split; intros H; [by apply not_elem_of_empty in H | by apply not_elem_of_nil in H].
Qed.

(** The key of the code is the stated normalization with the ends
    stripped. *)
Lemma simple_title_stated (paper : Paper) :
  simple_title paper = Py.strip (stated_title paper).
Proof.
  unfold simple_title, stated_title, normalize_as_stated, Py.strip.
  rewrite chars_str. f_equal. apply join_split_strip.
Qed.

(** C3, as amended.  [_remove_duplicates] keeps a paper exactly when no
    paper before it has the same simplified title, and the simplified title
    is the title in lower case, without the characters that are neither
    word characters nor whitespace, with every run of whitespace turned
    into one space and, beyond what the claim says, with the whitespace at
    both ends removed. *)
Theorem remove_duplicates_first_wins (papers : list Paper) :
  remove_duplicates papers = keep_first simple_title papers /\
  (forall p : Paper, simple_title p = Py.strip (stated_title p)).
Proof.
  split; [apply remove_duplicates_keep_first | apply simple_title_stated].
Qed.

End Deduplication.

(** ** Sorting *)

Section Sorting.

Lemma insert_desc_of_year (y : Z) (p : Paper) (sorted : list Paper) :
  of_year y (insert_desc p sorted) =
    if year_key p =? y then p :: of_year y sorted else of_year y sorted.
Proof.
  unfold of_year.
  induction sorted as [|q sorted IH]; cbn [insert_desc List.filter]; [reflexivity|].
  destruct (Z.ltb_spec (year_key p) (year_key q)) as [Hlt|Hge]; cbn [List.filter].
  - rewrite IH.
    destruct (Z.eqb_spec (year_key p) y) as [Hp|Hp]; [|reflexivity].
    destruct (Z.eqb_spec (year_key q) y) as [Hq|Hq]; [lia | reflexivity].
  - reflexivity.
Qed.

(** Stability: the papers of one year are in the order they came in. *)
Lemma sort_by_year_desc_of_year (y : Z) (papers : list Paper) :
  of_year y (sort_by_year_desc papers) = of_year y papers.
Proof.
  induction papers as [|p papers IH]; [reflexivity|].
  cbn [sort_by_year_desc foldr]. fold (sort_by_year_desc papers).
  rewrite insert_desc_of_year, IH. reflexivity.
Qed.

Lemma insert_desc_Forall (P : Paper -> Prop) (p : Paper) (sorted : list Paper) :
  P p -> Forall P sorted -> Forall P (insert_desc p sorted).
Proof.
  intros Hp. induction 1 as [|q sorted Hq Hs IH]; simpl.
  - constructor; [exact Hp | constructor].
  - destruct (year_key p <? year_key q); repeat constructor; assumption.
Qed.

Lemma insert_desc_sorted (p : Paper) (sorted : list Paper) :
  StronglySorted newest_first sorted -> StronglySorted newest_first (insert_desc p sorted).
Proof.
  induction 1 as [|q sorted Hs IH Hq]; simpl.
  - repeat constructor.
  - destruct (Z.ltb_spec (year_key p) (year_key q)) as [Hlt|Hge].
    + constructor; [exact IH|].
      apply insert_desc_Forall; [unfold newest_first; lia | exact Hq].
    + constructor; [by constructor|].
      constructor; [exact Hge|].
      eapply Forall_impl; [exact Hq|]. unfold newest_first. intros r Hr. simpl in Hr. lia.
Qed.

Lemma sort_by_year_desc_sorted (papers : list Paper) :
  StronglySorted newest_first (sort_by_year_desc papers).
Proof.
  induction papers as [|p papers IH]; simpl; [constructor | by apply insert_desc_sorted].
Qed.

Lemma sort_by_year_desc_perm (papers : list Paper) :
  Permutation (sort_by_year_desc papers) papers.
Proof.
  assert (forall p s, Permutation (insert_desc p s) (p :: s)) as Hins.
  { intros p s. induction s as [|q s IH]; simpl; [reflexivity|].
    destruct (year_key p <? year_key q); [|reflexivity].
    rewrite IH. apply perm_swap. }
  induction papers as [|p papers IH]; simpl; [reflexivity|].
  rewrite Hins. by constructor.
Qed.

Lemma StronglySorted_prefix {A} (R : A -> A -> Prop) (l1 l2 : list A) :
  l1 `prefix_of` l2 -> StronglySorted R l2 -> StronglySorted R l1.
Proof.
  intros [k ->]. induction l1 as [|a l1 IH]; simpl; intros H; [constructor|].
  inversion H as [|? ? Hs Ha]; subst. constructor; [by apply IH|].
  apply Forall_app in Ha. tauto.
Qed.

Lemma of_year_prefix (y : Z) (l1 l2 : list Paper) :
  l1 `prefix_of` l2 -> of_year y l1 `prefix_of` of_year y l2.
Proof.
  intros [k ->]. unfold of_year. rewrite List.filter_app. by eexists.
Qed.

End Sorting.

(** ** The provider clients *)

Section WithEnvironment.
Context (env : environment).

Lemma arxiv_entry_papers_retained (self : PaperSearcher) (entry : atom_entry) :
  Forall (retained (min_year self)) (arxiv_entry_papers self entry).
Proof.
  unfold arxiv_entry_papers.
  set (t := match entry_title entry with Some t => _ | None => _ end).
  destruct (Z.ltb_spec (entry_year (entry_published entry)) (min_year self)) as [?|Hy];
    [constructor|].
  destruct (Py.truthy t && Py.truthy_opt (entry_pdf_url entry)) eqn:Hkeep; [|constructor].
  apply andb_true_iff in Hkeep as [Ht Hu].
  constructor; [|constructor].
  split; [|split]; simpl.
  - exists t. split; [reflexivity | by apply truthy_true].
  - by apply truthy_opt_true.
  - eexists. split; [reflexivity | exact Hy].
Qed.

Lemma scholar_item_papers_retained (self : PaperSearcher) (item : scholar_item) :
  Forall (retained (min_year self)) (scholar_item_papers self item).
Proof.
  unfold scholar_item_papers, scholar_item_try.
  destruct (scholar_authors item) as [authors|?]; [|constructor].
  set (t := clean_text_opt (get_default (item_title item) _)).
  unfold scholar_keep.
  destruct (Py.truthy t) eqn:Ht; simpl; [|constructor].
  destruct (Py.truthy_opt (scholar_pdf_url item)) eqn:Hu; simpl; [|constructor].
  destruct (get_default (item_year item) 2024) as [y|]; simpl; [|constructor].
  destruct (Z.leb_spec (min_year self) y) as [Hy|?]; [|constructor].
  constructor; [|constructor].
  split; [|split]; simpl.
  - exists t. split; [reflexivity | by apply truthy_true].
  - by apply truthy_opt_true.
  - exists y. split; [reflexivity | exact Hy].
Qed.

Lemma Forall_flat_map_intro {A B} (P : B -> Prop) (f : A -> list B) (l : list A) :
  (forall a, Forall P (f a)) -> Forall P (flat_map f l).
Proof.
  intros Hf. induction l as [|a l IH]; simpl; [constructor|].
  apply Forall_app. split; [apply Hf | exact IH].
Qed.

(** A search returns; its papers are retained ones; a failed request
    gives the empty list. *)
Lemma arxiv_search_papers_returns (self : PaperSearcher) (query : string) (w : world) :
  exists w' ps,
    arxiv_search_papers env self query w = (w', Ret ps) /\
    Forall (retained (min_year self)) ps /\
    (forall e, arxiv_feed env (trace w) ("all:" +:+ query) (max_papers self) = Raise e ->
               ps = []).
Proof.
  unfold arxiv_search_papers, try_except, bind, ret.
  destruct (arxiv_feed env _ _ _) as [entries|e].
  - eexists _, _. split; [reflexivity|]. split; [|discriminate].
    apply Forall_flat_map_intro, arxiv_entry_papers_retained.
  - eexists _, _. split; [reflexivity|]. split; [constructor | reflexivity].
Qed.

Lemma scholar_search_papers_returns (self : PaperSearcher) (query : string) (w : world) :
  exists w' ps,
    scholar_search_papers env self query w = (w', Ret ps) /\
    Forall (retained (min_year self)) ps /\
    (forall e, scholar_search env (trace w) query (max_papers self)
                 (pretty (min_year self) +:+ "-") = Raise e ->
               ps = []).
Proof.
  unfold scholar_search_papers, try_except, bind, ret, lift.
  destruct (scholar_search env _ _ _ _) as [data|e].
  - destruct (get_default (response_data data) []) as [items|]; simpl.
    + eexists _, _. split; [reflexivity|]. split; [|discriminate].
      apply Forall_flat_map_intro, scholar_item_papers_retained.
    + eexists _, _. split; [reflexivity|]. split; [constructor | discriminate].
  - eexists _, _. split; [reflexivity|]. split; [constructor | reflexivity].
Qed.

Lemma search_papers_of_returns (s : searcher) (query : string) (w : world) :
  exists w' ps, search_papers_of env s query w = (w', Ret ps).
Proof.
  destruct s as [cfg|cfg]; simpl.
  - destruct (arxiv_search_papers_returns cfg query w) as (w' & ps & H & _). eauto.
  - destruct (scholar_search_papers_returns cfg query w) as (w' & ps & H & _). eauto.
Qed.

Lemma gather_from_returns (query : string) (s : searcher) (w : world) :
  exists w' ps, gather_from env query s w = (w', Ret ps).
Proof.
  unfold gather_from, try_except, bind.
  destruct (search_papers_of_returns s query w) as (w' & ps & ->).
  unfold emit, ret. eauto.
Qed.

Lemma for_each_returns {A B} (body : A -> M (list B)) (xs : list A) :
  (forall x w, exists w' ys, body x w = (w', Ret ys)) ->
  forall w, exists w' ys, for_each body xs w = (w', Ret ys).
Proof.
  intros Hbody. induction xs as [|x xs IH]; intros w; simpl.
  - unfold ret. eauto.
  - unfold bind. destruct (Hbody x w) as (w1 & ys & ->).
    destruct (IH w1) as (w2 & zs & ->). unfold ret. eauto.
Qed.

Lemma multi_search_papers_returns (self : MultiSourceSearcher) (query : string) (w : world) :
  exists w' all,
    gather env self query w = (w', Ret all) /\
    multi_search_papers env self query w =
      (w', Ret (Py.slice_to (multi_max_papers self)
                  (sort_by_year_desc (remove_duplicates all)))).
Proof.
  unfold multi_search_papers, bind.
  destruct (for_each_returns (gather_from env query) (searchers self)
              (gather_from_returns query) w) as (w' & all & Hg).
  unfold gather. rewrite Hg. unfold ret. eauto.
Qed.

(** ** The claims about the searchers *)

(** C2. Every paper in the list either provider client returns has a
    non-empty title, a non-empty [pdf_url] and a year that is at least the
    [min_year] of the searcher. *)
Theorem provider_papers_retained (self : PaperSearcher) (query : string) (w : world) :
  (forall ps, returned (arxiv_search_papers env self query w) = Some ps ->
              Forall (retained (min_year self)) ps) /\
  (forall ps, returned (scholar_search_papers env self query w) = Some ps ->
              Forall (retained (min_year self)) ps).
Proof.
  split; intros ps Hps.
  - destruct (arxiv_search_papers_returns self query w) as (w' & ps' & Hrun & Hret & _).
    rewrite Hrun in Hps. simpl in Hps. by inversion Hps; subst.
  - destruct (scholar_search_papers_returns self query w) as (w' & ps' & Hrun & Hret & _).
    rewrite Hrun in Hps. simpl in Hps. by inversion Hps; subst.
Qed.

(** C4. The list [search_papers] of the aggregator returns is in
    descending order of year, and the papers of each year are in it in the
    order the deduplication left them; with a cap that is not negative it
    has at most [max_papers] elements. *)
Theorem multi_search_papers_sorted (self : MultiSourceSearcher) (query : string)
    (w : world) (ps : list Paper) :
  returned (multi_search_papers env self query w) = Some ps ->
  StronglySorted newest_first ps /\
  (exists all, returned (gather env self query w) = Some all /\
     forall y, of_year y ps `prefix_of` of_year y (remove_duplicates all)) /\
  (0 <= multi_max_papers self -> Z.of_nat (length ps) <= multi_max_papers self).
Proof.
  intros Hps.
  destruct (multi_search_papers_returns self query w) as (w' & all & Hg & Hrun).
  rewrite Hrun in Hps. simpl in Hps. injection Hps as <-.
  split; [|split].
  - eapply StronglySorted_prefix; [apply slice_to_prefix | apply sort_by_year_desc_sorted].
  - exists all. split; [by rewrite Hg|].
    intros y. rewrite <- (sort_by_year_desc_of_year y (remove_duplicates all)).
    apply of_year_prefix, slice_to_prefix.
  - apply slice_to_length.
Qed.

End WithEnvironment.

Import Fixtures.

(** The scenario of the specification: of a 2023 entry and a 2024 entry,
    a search with [min_year = 2024] returns the second only. *)
Example arxiv_min_year_2024 :
  returned (arxiv_search_papers online (mkSearcher 5 2024) "graphs" empty_dir)
    = Some [trailing_space].
Proof. reflexivity. Qed.

(** An item with [year: null] is skipped by the handler of the loop. *)
Example scholar_null_year :
  returned (scholar_search_papers online (mkSearcher 5 2024) "graphs" empty_dir)
    = Some [no_trailing_space; deep_sets].
Proof. reflexivity. Qed.

Example multi_search_online :
  returned (multi_search_papers online (multi_init 10 2020) "graphs" empty_dir)
    = Some [trailing_space; deep_sets; message_passing].
Proof. reflexivity. Qed.

Example multi_search_offline :
  multi_search_papers offline (multi_init 10 2020) "graphs" empty_dir
    = (World [EvArxivQuery "all:graphs" 5; EvSleep 1;
              EvScholarQuery "graphs" 5 "2020-"; EvSleep 1] (Some ∅), Ret []).
Proof. reflexivity. Qed.

Lemma provider_papers_retained_witness :
  returned (arxiv_search_papers online (mkSearcher 5 2024) "graphs" empty_dir)
    = Some [trailing_space] /\
  Forall (retained 2024) [trailing_space].
Proof.
  split; [reflexivity|].
  apply (proj1 (provider_papers_retained online (mkSearcher 5 2024) "graphs" empty_dir)).
  reflexivity.
Defined.

Lemma multi_search_papers_sorted_witness :
  StronglySorted newest_first [trailing_space; deep_sets; message_passing] /\
  (exists all, returned (gather online (multi_init 10 2020) "graphs" empty_dir) = Some all /\
     forall y, of_year y [trailing_space; deep_sets; message_passing]
                 `prefix_of` of_year y (remove_duplicates all)) /\
  Z.of_nat (length [trailing_space; deep_sets; message_passing]) <= 10.
Proof.
  destruct (multi_search_papers_sorted online (multi_init 10 2020) "graphs" empty_dir
              [trailing_space; deep_sets; message_passing]) as (Hsorted & Hstable & Hcap);
    [reflexivity|].
  split; [exact Hsorted | split; [exact Hstable | apply Hcap; simpl; lia]].
Defined.

(** C3 as it is stated: with the normalization that keeps a space at the
    end of a title, the second of these two papers is the first of its
    title and would stay; the code drops it. *)
Lemma remove_duplicates_strips_ends :
  keep_first stated_title [trailing_space; no_trailing_space]
    = [trailing_space; no_trailing_space] /\
  remove_duplicates [trailing_space; no_trailing_space] = [trailing_space] /\
  remove_duplicates [trailing_space; no_trailing_space]
    <> keep_first stated_title [trailing_space; no_trailing_space].
Proof.
  assert (keep_first stated_title [trailing_space; no_trailing_space]
          = [trailing_space; no_trailing_space]) as H1 by reflexivity.
  assert (remove_duplicates [trailing_space; no_trailing_space] = [trailing_space]) as H2
    by reflexivity.
  rewrite H1, H2. repeat split. discriminate.
Qed.

End PaperSearchFacts.

(* ===================================================================== *)
(** * The public operations together *)
(* ===================================================================== *)

Module Pipeline.
Import PaperSearch PdfDownloader PaperSearchFacts PdfDownloaderFacts.




Import Fixtures.



Example get_download_stats_broken_link :
  snd (get_download_stats downloader broken_link)
    = Raise (OtherException "[Errno 2] No such file or directory: 'downloads/a.pdf'").
Proof. reflexivity. Qed.

End Pipeline.

(* ===================================================================== *)
(** * More about the searchers *)
(* ===================================================================== *)

Module PaperSearchMore.
Import PaperSearch PyFacts PaperSearchFacts Vocabulary.

(** ** Text cleaning *)

Section Cleaning.
Import Py.

Lemma length_str (l : list ascii) : String.length (str l) = length l.
Proof. induction l as [|c l IH]; simpl; [reflexivity | by rewrite IH]. Qed.

Lemma length_chars (s : string) : length (chars s) = String.length s.
Proof. induction s as [|c s IH]; simpl; [reflexivity | by rewrite IH]. Qed.

Lemma chars_app (s t : string) : chars (s +:+ t) = chars s ++ chars t.
Proof. induction s as [|c s IH]; simpl; [reflexivity | by rewrite IH]. Qed.

Lemma lstrip_by_suffix (p : ascii -> bool) (l : list ascii) :
  lstrip_by p l `suffix_of` l.
Proof.
  induction l as [|c l IH]; simpl; [done|].
  destruct (p c); [by apply suffix_cons_r | done].
Qed.

Lemma rstrip_by_prefix (p : ascii -> bool) (l : list ascii) :
  rstrip_by p l `prefix_of` l.
Proof.
  induction l as [|c l IH]; simpl; [done|].
  destruct (rstrip_by p l) as [|c' r] eqn:E.
  - destruct (p c); [apply prefix_nil | by apply prefix_cons, prefix_nil].
  - by apply prefix_cons.
Qed.

Lemma prefix_is_sublist {A} (l1 l2 : list A) : l1 `prefix_of` l2 -> l1 `sublist_of` l2.
Proof. intros [k ->]. by apply sublist_inserts_r. Qed.

Lemma suffix_is_sublist {A} (l1 l2 : list A) : l1 `suffix_of` l2 -> l1 `sublist_of` l2.
Proof. intros [k ->]. by apply sublist_inserts_l. Qed.

Lemma strip_by_sublist (p : ascii -> bool) (l : list ascii) :
  strip_by p l `sublist_of` l.
Proof.
  unfold strip_by. transitivity (rstrip_by p l).
  - apply suffix_is_sublist, lstrip_by_suffix.
  - apply prefix_is_sublist, rstrip_by_prefix.
Qed.

(** What [re.sub(r'\s+', r, s)] leaves: the replacement and the
    characters of [s] that are not whitespace. *)
Lemma sub_ws_runs_chars (r : ascii) (l : list ascii) :
  Forall (fun c => c = r \/ (c ∈ l /\ isspace c = false)) (sub_ws_runs r l).
Proof.
  induction l as [|c l IH]; [constructor|].
  assert (Forall (fun c' => c' = r \/ (c' ∈ c :: l /\ isspace c' = false)) (sub_ws_runs r l))
    as IH'.
  { eapply Forall_impl; [exact IH|]. intros x [->|[Hx Hs]]; [by left|].
    right. split; [by apply elem_of_cons; right | exact Hs]. }
  simpl. destruct (isspace c) eqn:Hc.
  - destruct l as [|c' l']; [repeat constructor|].
    destruct (isspace c'); [exact IH' | constructor; [by left | exact IH']].
  - constructor; [|exact IH'].
    right. split; [apply elem_of_cons; by left | exact Hc].
Qed.

Lemma sub_ws_runs_length (r : ascii) (l : list ascii) :
  (length (sub_ws_runs r l) <= length l)%nat.
Proof.
  induction l as [|c l IH]; simpl; [lia|].
  destruct (isspace c).
  - destruct l as [|c' l']; simpl in *; [lia|].
    destruct (isspace c'); simpl in *; lia.
  - simpl. lia.
Qed.

End Cleaning.

(** X1. The text [_clean_text] returns is never longer than its input and
    holds only word characters, plain spaces and the punctuation
    [-.,()[]]: tabs, line breaks and every other whitespace character have
    become spaces or are gone. *)
Theorem clean_text_alphabet (text : string) :
  Forall clean_char (Py.chars (clean_text text)) /\
  (String.length (clean_text text) <= String.length text)%nat.
Proof.
  unfold clean_text. destruct (Py.truthy text); simpl; [|split; [constructor | lia]].
  unfold Py.keep, Py.strip. rewrite !chars_str.
  set (l := Py.strip_by Py.isspace (Py.chars text)).
  split.
  - apply Forall_forall. intros c Hc.
    apply list_elem_of_In, filter_In in Hc as [Hin Hcls].
    split; [exact Hcls|]. intros Hsp.
    pose proof (sub_ws_runs_chars " " l) as Hall.
    rewrite Forall_forall in Hall.
    destruct (Hall c (proj2 (list_elem_of_In _ _) Hin)) as [->|[_ Hn]]; [reflexivity | congruence].
  - rewrite length_str.
    etransitivity; [apply List.filter_length_le|].
    etransitivity; [apply sub_ws_runs_length|].
    rewrite <- length_chars. apply sublist_length, strip_by_sublist.
Qed.

(** ** Which records a provider client keeps *)

Lemma arxiv_entry_papers_length (self : PaperSearcher) (entry : atom_entry) :
  (length (arxiv_entry_papers self entry) <= 1)%nat.
Proof.
  unfold arxiv_entry_papers.
  destruct (_ <? _); [simpl; lia|]. destruct (_ && _); simpl; lia.
Qed.

(** X2. An Atom entry yields a paper exactly when its cleaned title is not
    empty, its year is at least [min_year], and its first PDF link has a
    non-empty [href] or it has an [id] to build the address from; it never
    yields more than one. *)
Theorem arxiv_entry_kept_iff (self : PaperSearcher) (entry : atom_entry) :
  (arxiv_entry_papers self entry <> [] <->
     entry_clean_title entry <> ""%string /\
     min_year self <= entry_year (entry_published entry) /\
     (Py.truthy_opt (first_pdf_link (entry_links entry)) = true \/ is_Some (entry_id entry)))
  /\ (length (arxiv_entry_papers self entry) <= 1)%nat.
Proof.
  unfold arxiv_entry_papers, entry_clean_title.
  replace (match entry_title entry with Some t => clean_text t | None => clean_text "" end)
    with (clean_text (default ""%string (entry_title entry)))
    by (destruct (entry_title entry); reflexivity).
  set (t := clean_text _).
  assert (Py.truthy_opt (entry_pdf_url entry) = true <->
          (Py.truthy_opt (first_pdf_link (entry_links entry)) = true \/ is_Some (entry_id entry)))
    as Hurl.
  { unfold entry_pdf_url.
    destruct (Py.truthy_opt (first_pdf_link (entry_links entry))) eqn:Hl; simpl.
    - rewrite Hl. split; auto.
    - destruct (entry_id entry) as [i|]; simpl.
      + split; [intros _; right; eauto | reflexivity].
      + rewrite Hl. split; [discriminate | intros [?|[? ?]]; discriminate]. }
  destruct (Z.ltb_spec (entry_year (entry_published entry)) (min_year self)) as [Hy|Hy].
  { split; [|simpl; lia]. split; [congruence | intros (_ & ? & _); lia]. }
  destruct (Py.truthy t) eqn:Ht; simpl.
  - destruct (Py.truthy_opt (entry_pdf_url entry)) eqn:Hu; simpl.
    + split; [|lia]. split; [|discriminate].
      intros _. split; [by apply truthy_true|]. split; [exact Hy | by apply Hurl].
    + split; [|lia]. split; [congruence|].
      intros (_ & _ & H). apply Hurl in H. discriminate.
  - split; [|lia]. split; [congruence|].
    intros (H & _). apply truthy_true in H. congruence.
Qed.

(** X3. An item of Semantic Scholar whose [authors] or whose [year] is
    [null] yields no paper, whatever else it holds: the [TypeError] is
    caught by the handler of the loop. *)
Theorem scholar_null_field_dropped (self : PaperSearcher) (item : scholar_item) :
  item_authors item = Null \/ item_year item = Null ->
  scholar_item_papers self item = [].
Proof.
  intros Hnull. unfold scholar_item_papers, scholar_item_try.
  destruct (scholar_authors item) as [authors|e] eqn:Ha; [|reflexivity].
  destruct Hnull as [Hn|Hn].
  - unfold scholar_authors in Ha. rewrite Hn in Ha. discriminate.
  - rewrite Hn. simpl. unfold scholar_keep.
    destruct (Py.truthy _); simpl; [|reflexivity].
    destruct (Py.truthy_opt _); reflexivity.
Qed.

(** X4. A record without a date counts as one of 2024 for both providers:
    the paper it yields carries the year 2024, and with [min_year] above
    2024 it yields none. *)
Theorem undated_record_is_2024 (self : PaperSearcher) :
  (forall entry, entry_published entry = None ->
      Forall (fun p => year p = Some 2024) (arxiv_entry_papers self entry) /\
      (2024 < min_year self -> arxiv_entry_papers self entry = [])) /\
  (forall item, item_year item = Absent ->
      Forall (fun p => year p = Some 2024) (scholar_item_papers self item) /\
      (2024 < min_year self -> scholar_item_papers self item = [])).
Proof.
  split.
  - intros entry Hp. unfold arxiv_entry_papers. rewrite Hp. simpl.
    destruct (Z.ltb_spec 2024 (min_year self)) as [Hlt|Hge].
    + split; [constructor | reflexivity].
    + split; [|lia]. destruct (_ && _); repeat constructor.
  - intros item Hy. unfold scholar_item_papers, scholar_item_try. rewrite Hy. simpl.
    destruct (scholar_authors item) as [authors|e]; [|split; [constructor | reflexivity]].
    unfold scholar_keep.
    destruct (Py.truthy _); simpl; [|split; [constructor | reflexivity]].
    destruct (Py.truthy_opt _); simpl; [|split; [constructor | reflexivity]].
    destruct (Z.leb_spec (min_year self) 2024) as [Hle|Hgt].
    + split; [repeat constructor | lia].
    + split; [constructor | reflexivity].
Qed.

(** ** Deduplication on its own *)

Lemma remove_duplicates_from_sublist (papers : list Paper) :
  forall seen, remove_duplicates_from seen papers `sublist_of` papers.
Proof.
  induction papers as [|p papers IH]; intros seen; simpl; [done|].
  destruct (bool_decide _); [by apply sublist_skip | by apply sublist_cons].
Qed.

Lemma remove_duplicates_from_fresh (papers : list Paper) :
  forall seen p, p ∈ remove_duplicates_from seen papers -> simple_title p ∉ seen.
Proof.
  induction papers as [|q papers IH]; intros seen p; simpl.
  - intros H. by apply not_elem_of_nil in H.
  - destruct (bool_decide (simple_title q ∉ seen)) eqn:Hq.
    + apply bool_decide_eq_true in Hq.
      intros [->|Hin]%elem_of_cons; [exact Hq|].
      apply IH in Hin. intros Hs. apply Hin, elem_of_union. by right.
    + apply IH.
Qed.

Lemma remove_duplicates_from_NoDup (papers : list Paper) :
  forall seen, NoDup (map simple_title (remove_duplicates_from seen papers)).
Proof.
  induction papers as [|q papers IH]; intros seen; simpl; [constructor|].
  destruct (bool_decide (simple_title q ∉ seen)); [|apply IH].
  simpl. constructor; [|apply IH].
  intros Hin. apply list_elem_of_In, in_map_iff in Hin as (p & Hk & Hp).
  apply list_elem_of_In, remove_duplicates_from_fresh in Hp.
  apply Hp, elem_of_union. left. apply elem_of_singleton. exact Hk.
Qed.

Lemma remove_duplicates_from_covers (papers : list Paper) :
  forall seen p, p ∈ papers ->
    simple_title p ∈ seen \/
    simple_title p ∈ map simple_title (remove_duplicates_from seen papers).
Proof.
  induction papers as [|q papers IH]; intros seen p; simpl.
  - intros H. by apply not_elem_of_nil in H.
  - intros [->|Hin]%elem_of_cons.
    + destruct (bool_decide (simple_title q ∉ seen)) eqn:Hq.
      * right. simpl. apply elem_of_cons. by left.
      * apply bool_decide_eq_false in Hq. left.
        destruct (decide (simple_title q ∈ seen)); [assumption | contradiction].
    + destruct (bool_decide (simple_title q ∉ seen)).
      * destruct (IH ({[simple_title q]} ∪ seen) p Hin) as [Hs|Hr].
        -- apply elem_of_union in Hs as [->%elem_of_singleton|Hs]; [|by left].
           right. simpl. apply elem_of_cons. by left.
        -- right. simpl. apply elem_of_cons. by right.
      * by apply IH.
Qed.

Lemma remove_duplicates_from_id (papers : list Paper) :
  forall seen,
    NoDup (map simple_title papers) ->
    (forall p, p ∈ papers -> simple_title p ∉ seen) ->
    remove_duplicates_from seen papers = papers.
Proof.
  induction papers as [|q papers IH]; intros seen Hnd Hfresh; simpl; [reflexivity|].
  simpl in Hnd. apply NoDup_cons in Hnd as [Hq Hnd].
  rewrite bool_decide_eq_true_2 by (apply Hfresh, elem_of_cons; by left).
  f_equal. apply IH; [exact Hnd|].
  intros p Hp [Heq%elem_of_singleton|Hs]%elem_of_union.
  - apply Hq. rewrite <- Heq. apply list_elem_of_In, in_map, list_elem_of_In, Hp.
  - eapply Hfresh; [|exact Hs]. apply elem_of_cons. by right.
Qed.

(** X7. [_remove_duplicates] returns a sub-list of its input, in the input
    order, in which no two papers have the same simplified title, and
    every simplified title of the input is still represented. *)
Theorem remove_duplicates_distinct_and_complete (papers : list Paper) :
  remove_duplicates papers `sublist_of` papers /\
  NoDup (map simple_title (remove_duplicates papers)) /\
  (forall p, p ∈ papers ->
     simple_title p ∈ map simple_title (remove_duplicates papers)).
Proof.
  split; [apply remove_duplicates_from_sublist|].
  split; [apply remove_duplicates_from_NoDup|].
  intros p Hp.
  destruct (remove_duplicates_from_covers papers ∅ p Hp) as [H|H]; [|exact H].
  by apply not_elem_of_empty in H.
Qed.

(** X8. A list without two papers of the same simplified title comes back
    from [_remove_duplicates] as it is; so deduplicating twice gives what
    deduplicating once gives. *)
Theorem remove_duplicates_idempotent (papers : list Paper) :
  (NoDup (map simple_title papers) -> remove_duplicates papers = papers) /\
  remove_duplicates (remove_duplicates papers) = remove_duplicates papers.
Proof.
  split.
  - intros Hnd. apply remove_duplicates_from_id; [exact Hnd|].
    intros p _ H. by apply not_elem_of_empty in H.
  - apply remove_duplicates_from_id; [apply remove_duplicates_from_NoDup|].
    intros p _ H. by apply not_elem_of_empty in H.
Qed.

(** ** One request, and no more papers than asked for *)

Section WithEnvironment.
Context (env : environment).

Lemma arxiv_search_papers_world (self : PaperSearcher) (query : string) (w : world) :
  world_after (arxiv_search_papers env self query w) =
    World (trace w ++ [EvArxivQuery ("all:" +:+ query) (max_papers self)]) (dir w).
Proof.
  unfold arxiv_search_papers, try_except, bind, ret, world_after.
  destruct (arxiv_feed env _ _ _); reflexivity.
Qed.

Lemma scholar_search_papers_world (self : PaperSearcher) (query : string) (w : world) :
  world_after (scholar_search_papers env self query w) =
    World (trace w ++ [EvScholarQuery query (max_papers self) (pretty (min_year self) +:+ "-")])
          (dir w).
Proof.
  unfold scholar_search_papers, try_except, bind, ret, lift, world_after.
  destruct (scholar_search env _ _ _ _) as [data|e]; [|reflexivity].
  destruct (get_default (response_data data) []); reflexivity.
Qed.

Lemma flat_map_length_le {A B} (f : A -> list B) (l : list A) :
  (forall a, (length (f a) <= 1)%nat) -> (length (flat_map f l) <= length l)%nat.
Proof.
  intros Hf. induction l as [|a l IH]; simpl; [lia|].
  rewrite length_app. specialize (Hf a). lia.
Qed.

Lemma scholar_item_papers_length (self : PaperSearcher) (item : scholar_item) :
  (length (scholar_item_papers self item) <= 1)%nat.
Proof.
  unfold scholar_item_papers, scholar_item_try.
  destruct (scholar_authors item); [|simpl; lia].
  destruct (scholar_keep _ _ _ _) as [[]|]; simpl; lia.
Qed.

Lemma arxiv_search_papers_cap (self : PaperSearcher) (query : string) (w : world)
    (ps : list Paper) :
  0 <= max_papers self ->
  returned (arxiv_search_papers env self query w) = Some ps ->
  Z.of_nat (length ps) <= max_papers self.
Proof.
  intros Hcap. unfold arxiv_search_papers, try_except, bind, ret.
  destruct (arxiv_feed env _ _ _) as [entries|e]; simpl; intros [= <-]; [|simpl; lia].
  pose proof (flat_map_length_le (arxiv_entry_papers self)
                (Py.slice_to (max_papers self) entries)
                (arxiv_entry_papers_length self)) as H1.
  pose proof (slice_to_length (max_papers self) entries Hcap). lia.
Qed.

Lemma scholar_search_papers_cap (self : PaperSearcher) (query : string) (w : world)
    (ps : list Paper) :
  0 <= max_papers self ->
  returned (scholar_search_papers env self query w) = Some ps ->
  Z.of_nat (length ps) <= max_papers self.
Proof.
  intros Hcap. unfold scholar_search_papers, try_except, bind, ret, lift.
  destruct (scholar_search env _ _ _ _) as [data|e]; simpl; [|intros [= <-]; simpl; lia].
  destruct (get_default (response_data data) []) as [items|]; simpl;
    intros [= <-]; [|simpl; lia].
  pose proof (flat_map_length_le (scholar_item_papers self)
                (Py.slice_to (max_papers self) items)
                (scholar_item_papers_length self)) as H1.
  pose proof (slice_to_length (max_papers self) items Hcap). lia.
Qed.

(** X5. With a cap that is not negative, a provider client returns at most
    [max_papers] papers, however many records the provider sends. *)
Theorem provider_papers_cap (self : PaperSearcher) (query : string) (w : world) :
  0 <= max_papers self ->
  (forall ps, returned (arxiv_search_papers env self query w) = Some ps ->
              Z.of_nat (length ps) <= max_papers self) /\
  (forall ps, returned (scholar_search_papers env self query w) = Some ps ->
              Z.of_nat (length ps) <= max_papers self).
Proof.
  intros Hcap. split; intros ps Hps.
  - by eapply arxiv_search_papers_cap.
  - by eapply scholar_search_papers_cap.
Qed.

(** ** The aggregator built by [MultiSourceSearcher.__init__] *)

(** The run of the two clients, one after the other, each followed by its
    pause. *)
Lemma gather_multi_init (n y : Z) (query : string) (w : world) :
  let cfg := mkSearcher (n / 2) y in
  let w1 := World (trace w ++ [EvArxivQuery ("all:" +:+ query) (n / 2)]) (dir w) in
  let w2 := World (trace w1 ++ [EvSleep 1]) (dir w) in
  let w3 := World (trace w2 ++ [EvScholarQuery query (n / 2) (pretty y +:+ "-")]) (dir w) in
  let w4 := World (trace w3 ++ [EvSleep 1]) (dir w) in
  exists a b,
    arxiv_search_papers env cfg query w = (w1, Ret a) /\
    scholar_search_papers env cfg query w2 = (w3, Ret b) /\
    gather env (multi_init n y) query w = (w4, Ret (a ++ b)).
Proof.
  intros cfg w1 w2 w3 w4.
  destruct (arxiv_search_papers_returns env cfg query w) as (w1' & a & Ha & _).
  pose proof (arxiv_search_papers_world cfg query w) as Hw1.
  rewrite Ha in Hw1. simpl in Hw1. subst w1'.
  destruct (scholar_search_papers_returns env cfg query w2) as (w3' & b & Hb & _).
  pose proof (scholar_search_papers_world cfg query w2) as Hw3.
  rewrite Hb in Hw3. simpl in Hw3. subst w3'.
  exists a, b. split; [exact Ha|]. split; [exact Hb|].
  unfold gather, multi_init. simpl.
  unfold bind, gather_from, try_except, bind. simpl.
  fold cfg. rewrite Ha. unfold ret, emit. subst w1 w2 w3 w4. simpl in Hb |- *.
  rewrite Hb. simpl. rewrite app_nil_r. reflexivity.
Qed.

Lemma multi_init_search (n y : Z) (query : string) (w : world) :
  exists w' all,
    gather env (multi_init n y) query w = (w', Ret all) /\
    multi_search_papers env (multi_init n y) query w =
      (w', Ret (Py.slice_to n (sort_by_year_desc (remove_duplicates all)))).
Proof. apply (multi_search_papers_returns env (multi_init n y)). Qed.

(** X6. A search of the aggregator asks ArXiv, pauses, asks Semantic
    Scholar, pauses again, each provider for half the cap rounded down, in
    this order and whether or not a provider fails; it touches nothing in
    the download directory. *)
Theorem multi_search_papers_requests (n y : Z) (query : string) (w : world) :
  world_after (multi_search_papers env (multi_init n y) query w) =
    World (trace w ++ [ EvArxivQuery ("all:" +:+ query) (n / 2); EvSleep 1;
                        EvScholarQuery query (n / 2) (pretty y +:+ "-"); EvSleep 1 ])
          (dir w).
Proof.
  destruct (gather_multi_init n y query w) as (a & b & _ & _ & Hg).
  unfold multi_search_papers, bind. rewrite Hg. simpl.
  rewrite <- !app_assoc. reflexivity.
Qed.

Lemma NoDup_map_sublist {A B} (f : A -> B) (l1 l2 : list A) :
  l1 `sublist_of` l2 -> NoDup (map f l2) -> NoDup (map f l1).
Proof.
  intros Hsub Hnd. apply (sublist_NoDup (map f l1) (map f l2)); [exact Hnd | clear Hnd].
  induction Hsub; simpl; [constructor | by apply sublist_skip | by apply sublist_cons].
Qed.

(** X10. Every paper the aggregator returns is one a provider client
    retained for the aggregator's [min_year] (non-empty title, non-empty
    [pdf_url], year at least [min_year]), and no two of them have the same
    simplified title. *)
Theorem multi_search_papers_retained_distinct (n y : Z) (query : string) (w : world)
    (ps : list Paper) :
  returned (multi_search_papers env (multi_init n y) query w) = Some ps ->
  Forall (retained y) ps /\ NoDup (map simple_title ps).
Proof.
  intros Hps.
  destruct (gather_multi_init n y query w) as (a & b & Ha & Hb & Hg).
  destruct (multi_init_search n y query w) as (w' & all & Hg' & Hrun).
  rewrite Hg in Hg'. injection Hg' as _ <-.
  rewrite Hrun in Hps. simpl in Hps. injection Hps as <-.
  assert (Forall (retained y) (a ++ b)) as Hall.
  { apply Forall_app. split.
    - destruct (arxiv_search_papers_returns env (mkSearcher (n / 2) y) query w)
        as (w1 & a' & Ha' & Hret & _).
      rewrite Ha in Ha'. injection Ha' as _ <-. exact Hret.
    - destruct (scholar_search_papers_returns env (mkSearcher (n / 2) y) query
                  (World ((trace w ++ [EvArxivQuery ("all:" +:+ query) (n / 2)]) ++ [EvSleep 1])
                         (dir w)))
        as (w3 & b' & Hb' & Hret & _).
      simpl in Hb. rewrite Hb in Hb'. injection Hb' as _ <-. exact Hret. }
  set (unique := remove_duplicates (a ++ b)).
  assert (Py.slice_to n (sort_by_year_desc unique) `sublist_of` sort_by_year_desc unique)
    as Hsub by apply prefix_is_sublist, slice_to_prefix.
  split.
  - apply Forall_forall. intros p Hp.
    eapply elem_of_sublist in Hp; [|exact Hsub].
    rewrite (sort_by_year_desc_perm unique) in Hp.
    eapply elem_of_sublist in Hp; [|apply remove_duplicates_from_sublist].
    rewrite Forall_forall in Hall. by apply Hall.
  - eapply NoDup_map_sublist; [exact Hsub|].
    rewrite (sort_by_year_desc_perm unique). apply remove_duplicates_from_NoDup.
Qed.

(** X11. With a cap [n] that is not negative the aggregator returns at
    most [2 * (n // 2)] papers, since each provider is asked for [n // 2]:
    one fewer than the cap when the cap is odd, and none at all for a cap
    of one. *)
Theorem multi_search_papers_halved_cap (n y : Z) (query : string) (w : world)
    (ps : list Paper) :
  0 <= n ->
  returned (multi_search_papers env (multi_init n y) query w) = Some ps ->
  Z.of_nat (length ps) <= 2 * (n / 2) /\ (n = 1 -> ps = []).
Proof.
  intros Hn Hps.
  destruct (gather_multi_init n y query w) as (a & b & Ha & Hb & Hg).
  destruct (multi_init_search n y query w) as (w' & all & Hg' & Hrun).
  rewrite Hg in Hg'. injection Hg' as _ <-.
  rewrite Hrun in Hps. simpl in Hps. injection Hps as <-.
  assert (0 <= n / 2) as Hhalf by (apply Z.div_pos; lia).
  assert (Z.of_nat (length a) <= n / 2) as Hla.
  { apply (arxiv_search_papers_cap (mkSearcher (n / 2) y) query w a Hhalf).
    by rewrite Ha. }
  assert (Z.of_nat (length b) <= n / 2) as Hlb.
  { eapply (scholar_search_papers_cap (mkSearcher (n / 2) y) query _ b Hhalf).
    by rewrite Hb. }
  assert (Z.of_nat (length (Py.slice_to n (sort_by_year_desc (remove_duplicates (a ++ b)))))
          <= 2 * (n / 2)) as Hlen.
  { pose proof (sublist_length _ _ (prefix_is_sublist _ _
                  (slice_to_prefix n (sort_by_year_desc (remove_duplicates (a ++ b)))))) as H1.
    pose proof (Permutation_length (sort_by_year_desc_perm (remove_duplicates (a ++ b)))) as H2.
    pose proof (sublist_length _ _ (remove_duplicates_from_sublist (a ++ b) ∅)) as H3.
    unfold remove_duplicates in *. rewrite length_app in H3. lia. }
  split; [exact Hlen|].
  intros ->. change (1 / 2) with 0 in Hlen.
  destruct (Py.slice_to 1 _); [reflexivity | simpl in Hlen; lia].
Qed.

Lemma slice_to_all {A} (n : Z) (l : list A) :
  Z.of_nat (length l) <= n -> Py.slice_to n l = l.
Proof.
  intros Hlen. unfold Py.slice_to.
  destruct (Z.leb_spec 0 n) as [_|Hneg]; [|lia].
  apply firstn_all2. lia.
Qed.

(** X9. With a cap that is not negative the cut at the end of the
    aggregator's search never removes a paper: the list returned is the
    whole deduplicated union of the two providers' papers, sorted, and so
    holds each of its papers exactly as often as the union does. *)
Theorem multi_search_papers_cut_is_idle (n y : Z) (query : string) (w : world)
    (ps : list Paper) :
  0 <= n ->
  returned (multi_search_papers env (multi_init n y) query w) = Some ps ->
  exists all,
    returned (gather env (multi_init n y) query w) = Some all /\
    ps = sort_by_year_desc (remove_duplicates all) /\
    Permutation ps (remove_duplicates all).
Proof.
  intros Hn Hps.
  destruct (gather_multi_init n y query w) as (a & b & Ha & Hb & Hg).
  destruct (multi_init_search n y query w) as (w' & all & Hg' & Hrun).
  rewrite Hg in Hg'. injection Hg' as _ <-.
  rewrite Hrun in Hps. simpl in Hps. injection Hps as <-.
  exists (a ++ b). split; [by rewrite Hg|].
  assert (0 <= n / 2) as Hhalf by (apply Z.div_pos; lia).
  assert (Z.of_nat (length a) <= n / 2) as Hla.
  { apply (arxiv_search_papers_cap (mkSearcher (n / 2) y) query w a Hhalf).
    by rewrite Ha. }
  assert (Z.of_nat (length b) <= n / 2) as Hlb.
  { eapply (scholar_search_papers_cap (mkSearcher (n / 2) y) query _ b Hhalf).
    by rewrite Hb. }
  assert (2 * (n / 2) <= n) as Hdiv by (apply Z.mul_div_le; lia).
  rewrite slice_to_all.
  - split; [reflexivity | apply sort_by_year_desc_perm].
  - pose proof (Permutation_length (sort_by_year_desc_perm (remove_duplicates (a ++ b)))) as H2.
    pose proof (sublist_length _ _ (remove_duplicates_from_sublist (a ++ b) ∅)) as H3.
    unfold remove_duplicates in *. rewrite length_app in H3. lia.
Qed.

Lemma remove_duplicates_from_app (a b : list Paper) :
  forall seen p,
    p ∈ remove_duplicates_from seen (a ++ b) ->
    p ∈ a \/
    (p ∈ b /\ (simple_title p ∉ seen) /\
     forall q, q ∈ a -> simple_title q <> simple_title p).
Proof.
  induction a as [|x a IH]; intros seen p Hp; simpl in Hp.
  - right. split; [|split].
    + eapply elem_of_sublist; [exact Hp | apply remove_duplicates_from_sublist].
    + eapply remove_duplicates_from_fresh, Hp.
    + intros q Hq. by apply not_elem_of_nil in Hq.
  - destruct (bool_decide (simple_title x ∉ seen)) eqn:Hx.
    + apply elem_of_cons in Hp as [->|Hp]; [left; apply elem_of_cons; by left|].
      destruct (IH _ p Hp) as [Ha|(Hb & Hseen & Hq)].
      * left. apply elem_of_cons. by right.
      * right. split; [exact Hb|]. split.
        -- intros Hs. apply Hseen, elem_of_union. by right.
        -- intros q [->|Hqa]%elem_of_cons; [|by apply Hq].
           intros Heq. apply Hseen, elem_of_union. left. by apply elem_of_singleton.
    + apply bool_decide_eq_false in Hx.
      destruct (IH _ p Hp) as [Ha|(Hb & Hseen & Hq)].
      * left. apply elem_of_cons. by right.
      * right. split; [exact Hb|]. split; [exact Hseen|].
        intros q [->|Hqa]%elem_of_cons; [|by apply Hq].
        intros Heq. apply Hx. by rewrite Heq.
Qed.

(** X24. First source wins: every paper the aggregator returns is one
    ArXiv sent, or one Semantic Scholar sent whose simplified title no
    paper of ArXiv has. *)
Theorem multi_search_papers_prefers_arxiv (n y : Z) (query : string) (w : world)
    (ps : list Paper) :
  returned (multi_search_papers env (multi_init n y) query w) = Some ps ->
  exists a b,
    returned (arxiv_search_papers env (mkSearcher (n / 2) y) query w) = Some a /\
    returned (scholar_search_papers env (mkSearcher (n / 2) y) query
                (World ((trace w ++ [EvArxivQuery ("all:" +:+ query) (n / 2)]) ++ [EvSleep 1])
                       (dir w))) = Some b /\
    forall p, p ∈ ps ->
      p ∈ a \/ (p ∈ b /\ forall q, q ∈ a -> simple_title q <> simple_title p).
Proof.
  intros Hps.
  destruct (gather_multi_init n y query w) as (a & b & Ha & Hb & Hg).
  destruct (multi_init_search n y query w) as (w' & all & Hg' & Hrun).
  rewrite Hg in Hg'. injection Hg' as _ <-.
  rewrite Hrun in Hps. simpl in Hps. injection Hps as <-.
  exists a, b. split; [by rewrite Ha|]. split; [simpl in Hb; by rewrite Hb|].
  intros p Hp.
  eapply elem_of_sublist in Hp; [|apply prefix_is_sublist, slice_to_prefix].
  rewrite (sort_by_year_desc_perm (remove_duplicates (a ++ b))) in Hp.
  destruct (remove_duplicates_from_app a b ∅ p Hp) as [Hin|(Hin & _ & Hq)]; auto.
Qed.

(** X25. A provider that fails does not cost the results of the other:
    when the request to ArXiv raises, the aggregator returns the papers of
    Semantic Scholar, deduplicated, sorted and cut; and the other way
    round. *)
Theorem multi_search_papers_one_provider_down (n y : Z) (query : string) (w : world) :
  let cfg := mkSearcher (n / 2) y in
  let w2 := World ((trace w ++ [EvArxivQuery ("all:" +:+ query) (n / 2)]) ++ [EvSleep 1])
                  (dir w) in
  ((exists e, arxiv_feed env (trace w) ("all:" +:+ query) (n / 2) = Raise e) ->
     exists b, returned (scholar_search_papers env cfg query w2) = Some b /\
       returned (multi_search_papers env (multi_init n y) query w)
         = Some (Py.slice_to n (sort_by_year_desc (remove_duplicates b)))) /\
  ((exists e, scholar_search env (trace w2) query (n / 2) (pretty y +:+ "-") = Raise e) ->
     exists a, returned (arxiv_search_papers env cfg query w) = Some a /\
       returned (multi_search_papers env (multi_init n y) query w)
         = Some (Py.slice_to n (sort_by_year_desc (remove_duplicates a)))).
Proof.
  intros cfg w2.
  destruct (gather_multi_init n y query w) as (a & b & Ha & Hb & Hg).
  destruct (multi_init_search n y query w) as (w' & all & Hg' & Hrun).
  rewrite Hg in Hg'. injection Hg' as _ <-.
  assert (exists w3, scholar_search_papers env cfg query w2 = (w3, Ret b)) as [w3 Hb2]
    by (eexists; exact Hb).
  split; intros [e He].
  - exists b. split; [by rewrite Hb2|].
    destruct (arxiv_search_papers_returns env cfg query w) as (w1 & a' & Ha' & _ & Hfail).
    fold cfg in Ha. rewrite Ha in Ha'. injection Ha' as _ <-.
    rewrite Hrun, (Hfail e He). reflexivity.
  - exists a. split; [fold cfg in Ha; by rewrite Ha|].
    destruct (scholar_search_papers_returns env cfg query w2) as (w3' & b' & Hb' & _ & Hfail).
    rewrite Hb2 in Hb'. injection Hb' as _ <-.
    rewrite Hrun, (Hfail e He), app_nil_r. reflexivity.
Qed.

End WithEnvironment.

(** ** The theorems at work *)

Import Fixtures Samples.

Example clean_text_tabs :
  clean_text (String "009" "Graph" +:+ String "010" "  Networks (2nd ed.)!") =
    "Graph Networks (2nd ed.)"%string.
Proof. reflexivity. Qed.

Lemma scholar_null_field_dropped_witness :
  scholar_item_papers (mkSearcher 5 2020) item_null_authors = [] /\
  scholar_item_papers (mkSearcher 5 2020) item_without_year = [].
Proof.
  split.
  - apply scholar_null_field_dropped. left. reflexivity.
  - apply scholar_null_field_dropped. right. reflexivity.
Defined.

Lemma undated_record_is_2024_witness :
  Forall (fun p => year p = Some 2024) (arxiv_entry_papers (mkSearcher 5 2020) entry_undated) /\
  arxiv_entry_papers (mkSearcher 5 2025) entry_undated = [] /\
  Forall (fun p => year p = Some 2024) (scholar_item_papers (mkSearcher 5 2020) item_undated) /\
  scholar_item_papers (mkSearcher 5 2025) item_undated = [].
Proof.
  destruct (undated_record_is_2024 (mkSearcher 5 2020)) as [Ha Hs].
  destruct (undated_record_is_2024 (mkSearcher 5 2025)) as [Ha' Hs'].
  split; [apply (Ha entry_undated); reflexivity|].
  split; [apply (Ha' entry_undated); [reflexivity | simpl; lia]|].
  split; [apply (Hs item_undated); reflexivity|].
  apply (Hs' item_undated); [reflexivity | simpl; lia].
Defined.

Example undated_records_kept :
  arxiv_entry_papers (mkSearcher 5 2020) entry_undated <> [] /\
  scholar_item_papers (mkSearcher 5 2020) item_undated <> [].
Proof. split; discriminate. Qed.

Lemma provider_papers_cap_witness :
  Z.of_nat (length [message_passing]) <= 1 /\ Z.of_nat (length [no_trailing_space]) <= 1.
Proof.
  destruct (provider_papers_cap online (mkSearcher 1 2020) "graphs" empty_dir) as [Ha Hs];
    [simpl; lia|].
  split; [apply Ha | apply Hs]; reflexivity.
Defined.

Lemma remove_duplicates_distinct_and_complete_witness :
  simple_title no_trailing_space
    ∈ map simple_title (remove_duplicates [trailing_space; deep_sets; no_trailing_space]).
Proof.
  apply (remove_duplicates_distinct_and_complete
           [trailing_space; deep_sets; no_trailing_space]).
  apply elem_of_cons. right. apply elem_of_cons. right. apply elem_of_cons. by left.
Defined.

Lemma remove_duplicates_idempotent_witness :
  remove_duplicates [trailing_space; deep_sets] = [trailing_space; deep_sets].
Proof.
  apply (proj1 (remove_duplicates_idempotent [trailing_space; deep_sets])).
  assert (map simple_title [trailing_space; deep_sets]
          = ["graph networks"%string; "deep sets"%string]) as -> by reflexivity.
  repeat constructor.
  - intros [H|H]%elem_of_cons; [discriminate | by apply not_elem_of_nil in H].
  - intros H. by apply not_elem_of_nil in H.
Defined.

Lemma multi_search_papers_retained_distinct_witness :
  Forall (retained 2020) [trailing_space; deep_sets; message_passing] /\
  NoDup (map simple_title [trailing_space; deep_sets; message_passing]).
Proof.
  apply (multi_search_papers_retained_distinct online 10 2020 "graphs" empty_dir).
  reflexivity.
Defined.

Lemma multi_search_papers_halved_cap_witness :
  Z.of_nat (length [no_trailing_space; message_passing]) <= 2 * (3 / 2) /\
  (3 = 1 -> [no_trailing_space; message_passing] = []).
Proof.
  apply (multi_search_papers_halved_cap online 3 2020 "graphs" empty_dir);
    [lia | reflexivity].
Defined.

Lemma multi_search_papers_cut_is_idle_witness :
  exists all,
    returned (gather online (multi_init 10 2020) "graphs" empty_dir) = Some all /\
    [trailing_space; deep_sets; message_passing] = sort_by_year_desc (remove_duplicates all) /\
    Permutation [trailing_space; deep_sets; message_passing] (remove_duplicates all).
Proof.
  apply (multi_search_papers_cut_is_idle online 10 2020 "graphs" empty_dir);
    [lia | reflexivity].
Defined.

Example multi_search_cap_of_one :
  returned (multi_search_papers online (multi_init 1 2020) "graphs" empty_dir) = Some [].
Proof. reflexivity. Qed.

Lemma multi_search_papers_prefers_arxiv_witness :
  exists a b,
    returned (arxiv_search_papers online (mkSearcher (10 / 2) 2020) "graphs" empty_dir)
      = Some a /\
    returned (scholar_search_papers online (mkSearcher (10 / 2) 2020) "graphs"
                (World ((trace empty_dir ++ [EvArxivQuery ("all:" +:+ "graphs") (10 / 2)])
                        ++ [EvSleep 1]) (dir empty_dir))) = Some b /\
    forall p, p ∈ [trailing_space; deep_sets; message_passing] ->
      p ∈ a \/ (p ∈ b /\ forall q, q ∈ a -> simple_title q <> simple_title p).
Proof.
  apply (multi_search_papers_prefers_arxiv online 10 2020 "graphs" empty_dir).
  reflexivity.
Defined.

Lemma multi_search_papers_one_provider_down_witness :
  exists a,
    returned (arxiv_search_papers arxiv_only (mkSearcher (10 / 2) 2020) "graphs" empty_dir)
      = Some a /\
    returned (multi_search_papers arxiv_only (multi_init 10 2020) "graphs" empty_dir)
      = Some (Py.slice_to 10 (sort_by_year_desc (remove_duplicates a))).
Proof.
  apply (multi_search_papers_one_provider_down arxiv_only 10 2020 "graphs" empty_dir).
  eexists. reflexivity.
Defined.

Example multi_search_arxiv_only :
  returned (multi_search_papers arxiv_only (multi_init 10 2020) "graphs" empty_dir)
    = Some [trailing_space; message_passing].
Proof. reflexivity. Qed.

End PaperSearchMore.

(* ===================================================================== *)
(** * More about the downloader *)
(* ===================================================================== *)

Module PdfDownloaderMore.
Import PdfDownloader PyFacts PdfDownloaderFacts PaperSearchMore Vocabulary.

(** ** File names *)

Section FileNames.
Import Py.

Lemma rstrip_by_last (p : ascii -> bool) (l : list ascii) (c : ascii) :
  last (rstrip_by p l) = Some c -> p c = false.
Proof.
  induction l as [|a l IH]; simpl; [discriminate|].
  destruct (rstrip_by p l) as [|b r] eqn:E.
  - destruct (p a) eqn:Ha; simpl; [discriminate | intros [= <-]; exact Ha].
  - intros H. apply IH. rewrite <- H. reflexivity.
Qed.

Lemma Forall_sublist {A} (P : A -> Prop) (l1 l2 : list A) :
  l1 `sublist_of` l2 -> Forall P l2 -> Forall P l1.
Proof.
  intros Hsub Hall. apply Forall_forall. intros x Hx.
  rewrite Forall_forall in Hall. eapply Hall, elem_of_sublist; eassumption.
Qed.

Lemma underscore_runs_filename_chars (l : list ascii) :
  Forall (fun c => illegal_char c = false) l ->
  Forall filename_char (sub_ws_runs "_" l).
Proof.
  intros Hl. pose proof (sub_ws_runs_chars "_" l) as H.
  eapply Forall_impl; [exact H|]. simpl.
  intros c [->|[Hin Hsp]]; [split; reflexivity|].
  split; [|exact Hsp]. rewrite Forall_forall in Hl. by apply Hl.
Qed.

Lemma sanitized_title_shape (title : string) :
  (String.length (sanitized_title title) <= 100)%nat /\
  Forall filename_char (chars (sanitized_title title)) /\
  (forall c, last (chars (sanitized_title title)) = Some c -> c <> "."%char).
Proof.
  unfold sanitized_title.
  set (kept := keep _ title).
  set (joined := str (sub_ws_runs "_" (chars (strip kept)))).
  set (cut := if (100 <? String.length joined)%nat then take 100 joined else joined).
  assert (Forall filename_char (chars joined)) as Hjoined.
  { unfold joined, strip. rewrite !chars_str.
    apply underscore_runs_filename_chars.
    eapply Forall_sublist; [apply strip_by_sublist|].
    unfold kept, keep. rewrite chars_str.
    apply Forall_forall. intros c Hc.
    apply list_elem_of_In, filter_In in Hc as [_ Hc]. by apply negb_true_iff. }
  assert ((String.length cut <= 100)%nat /\ Forall filename_char (chars cut)) as [Hlen Hcut].
  { unfold cut. destruct (Nat.ltb_spec 100 (String.length joined)) as [Hlong|Hshort].
    - unfold take. rewrite chars_str, length_str, length_firstn. split; [lia|].
      eapply Forall_sublist; [|exact Hjoined].
      apply prefix_is_sublist. exists (skipn 100 (chars joined)).
      symmetry. apply firstn_skipn.
    - split; [exact Hshort | exact Hjoined]. }
  rewrite chars_str, length_str.
  pose proof (rstrip_by_prefix (fun c => Ascii.eqb c "." || Ascii.eqb c " ") (chars cut))
    as Hpre.
  split; [|split].
  - apply prefix_is_sublist, sublist_length in Hpre.
    rewrite length_chars in Hpre. lia.
  - eapply Forall_sublist; [apply prefix_is_sublist, Hpre | exact Hcut].
  - intros c Hc Heq. apply rstrip_by_last in Hc. subst c. discriminate.
Qed.

End FileNames.

Section WithEnvironment.
Context (env : environment).

Lemma create_safe_filename_eq (title : string) (w : world) :
  create_safe_filename env title w =
    (w, Ret (if Py.truthy (sanitized_title title) then sanitized_title title
             else "paper_" +:+ pretty (time_now env (trace w)))).
Proof.
  unfold create_safe_filename. fold (sanitized_title title).
  destruct (Py.truthy (sanitized_title title)); reflexivity.
Qed.

(** X12. [_create_safe_filename] never returns the empty string.  When the
    title leaves anything after sanitizing, the name has at most 100
    characters, none of them whitespace or one of the nine characters the
    first pattern removes (angle brackets, colon, double quote, slash,
    backslash, bar, question mark, star), and does not end in a period; otherwise the name is [paper_] followed by the
    clock reading. *)
Theorem create_safe_filename_safe (title : string) (w : world) :
  exists safe,
    create_safe_filename env title w = (w, Ret safe) /\
    safe <> ""%string /\
    (sanitized_title title <> ""%string ->
       safe = sanitized_title title /\
       (String.length safe <= 100)%nat /\
       Forall filename_char (Py.chars safe) /\
       (forall c, last (Py.chars safe) = Some c -> c <> "."%char)) /\
    (sanitized_title title = ""%string ->
       safe = "paper_" +:+ pretty (time_now env (trace w))).
Proof.
  eexists. split; [apply create_safe_filename_eq|].
  destruct (Py.truthy (sanitized_title title)) eqn:Ht.
  - apply truthy_true in Ht. split; [exact Ht|]. split; [|congruence].
    intros _. split; [reflexivity|]. apply sanitized_title_shape.
  - split; [discriminate|]. split; [|reflexivity].
    intros Hne. apply truthy_true in Hne. congruence.
Qed.

(** ** What a download may touch *)

Lemma effect_refl (f : string) (w : world) : effect f 0 w w.
Proof.
  split; [exists []; rewrite app_nil_r; repeat split; [constructor | simpl; lia]|].
  split; [reflexivity | auto].
Qed.

Lemma effect_trans (f : string) (n m : nat) (w w1 w2 : world) :
  effect f n w w1 -> effect f m w1 w2 -> effect f (n + m) w w2.
Proof.
  intros [(g1 & Ht1 & Hg1 & Hl1) [Hd1 Hf1]] [(g2 & Ht2 & Hg2 & Hl2) [Hd2 Hf2]].
  split; [|split].
  - exists (g1 ++ g2). rewrite Ht2, Ht1, app_assoc. split; [reflexivity|].
    split; [by apply Forall_app | rewrite length_app; lia].
  - by rewrite Hd2.
  - intros g Hg. rewrite Hf2, Hf1 by exact Hg. reflexivity.
Qed.

Lemma effect_weaken (f : string) (n m : nat) (w w' : world) :
  (n <= m)%nat -> effect f n w w' -> effect f m w w'.
Proof.
  intros Hnm [(g & Ht & Hg & Hl) Hs]. split; [|exact Hs].
  exists g. repeat split; [exact Ht | exact Hg | lia].
Qed.

(** The rule for [x <- m ;; k x]. *)
Lemma effect_bind {A B} (f : string) (n k : nat) (m : M A) (step : A -> M B) (w : world) :
  effect f n w (world_after (m w)) ->
  (forall a w1, m w = (w1, Ret a) -> effect f k w1 (world_after (step a w1))) ->
  effect f (n + k) w (world_after (bind m step w)).
Proof.
  intros Hm Hstep. unfold bind, world_after in *.
  destruct (m w) as [w1 [a|e]]; simpl in *.
  - eapply effect_trans; [exact Hm | by apply Hstep].
  - eapply effect_weaken; [|exact Hm]. lia.
Qed.

Lemma session_get_effect (f : string) (self : PDFDownloader) (url : string) (w : world) :
  effect f 1 w (world_after (session_get env self url w)).
Proof.
  unfold session_get, world_after. simpl. split; [|split; [reflexivity | auto]].
  exists [EvGet url (timeout self)]. repeat split; [repeat constructor | simpl; lia].
Qed.

Lemma raise_for_status_effect (f : string) (r : response) (w : world) :
  effect f 0 w (world_after (raise_for_status r w)).
Proof.
  unfold raise_for_status, world_after. destruct (status_error r); apply effect_refl.
Qed.

Lemma fetch_effect (f : string) (self : PDFDownloader) (url : string) (w : world) :
  effect f 2 w (world_after (fetch env self url w)).
Proof.
  unfold fetch.
  apply (effect_bind f 1 1); [apply session_get_effect|]. intros r w1 _.
  apply (effect_bind f 0 1); [apply raise_for_status_effect|]. intros _ w2 _.
  destruct (_ && _); [|apply (effect_weaken f 0); [lia | apply effect_refl]].
  destruct (Py.contains _ _); [|apply (effect_weaken f 0); [lia | apply effect_refl]].
  apply (effect_bind f 0 1); [apply effect_refl|]. intros html w3 _.
  destruct (Py.truthy_opt _); [|apply (effect_weaken f 0); [lia | apply effect_refl]].
  apply (effect_bind f 1 0); [apply session_get_effect|]. intros r' w4 _.
  apply (effect_bind f 0 0); [apply raise_for_status_effect|]. intros _ w5 _.
  apply effect_refl.
Qed.

Lemma same_but_update (f : string) (w : world) (d d' : gmap string dir_entry) :
  dir w = Some d ->
  (forall g, g <> f -> d' !! g = d !! g) ->
  effect f 0 w (World (trace w) (Some d')).
Proof.
  intros Hd Hsame. split; [exists []; simpl; rewrite app_nil_r;
                            repeat split; [constructor | simpl; lia]|].
  split; simpl.
  - rewrite Hd. split; eauto.
  - intros g Hg. unfold lookup_entry. simpl. rewrite Hd. simpl. by apply Hsame.
Qed.

Lemma open_wb_effect (self : PDFDownloader) (f : string) (w : world) :
  effect f 0 w (world_after (open_wb self f w)).
Proof.
  unfold open_wb, world_after, no_such_file, raise.
  destruct (Py.has_null _); [apply effect_refl|].
  destruct (dir w) as [d|] eqn:Hd; simpl; [|apply effect_refl].
  destruct (d !! f) as [[content|]|] eqn:Hf; simpl; try apply effect_refl;
    (eapply same_but_update; [exact Hd|]; intros g Hg; by rewrite lookup_insert_ne).
Qed.

Lemma write_effect (f : string) (chunk : list Byte.byte) (w : world) :
  effect f 0 w (world_after (write f chunk w)).
Proof.
  unfold write, world_after.
  destruct (dir w) as [d|] eqn:Hd; simpl; [|apply effect_refl].
  destruct (d !! f) as [[content|]|] eqn:Hf; simpl; try apply effect_refl.
  eapply same_but_update; [exact Hd|]. intros g Hg. by rewrite lookup_insert_ne.
Qed.

Lemma write_chunks_effect (f : string) (cs : list (list Byte.byte)) (w : world) :
  effect f 0 w (world_after (write_chunks f cs w)).
Proof.
  revert w. induction cs as [|chunk cs IH]; intros w; simpl; [apply effect_refl|].
  apply (effect_bind f 0 0); [|intros _ w1 _; apply IH].
  destruct chunk; [apply effect_refl | apply write_effect].
Qed.

Lemma save_effect (self : PDFDownloader) (f : string) (r : response) (w : world) :
  effect f 0 w (world_after (save self f r w)).
Proof.
  unfold save.
  apply (effect_bind f 0 0); [apply open_wb_effect|]. intros _ w1 _.
  apply (effect_bind f 0 0); [apply write_chunks_effect|]. intros _ w2 _.
  destruct (stream_error r); apply effect_refl.
Qed.

Lemma stat_size_effect (self : PDFDownloader) (f g : string) (w : world) :
  effect f 0 w (world_after (stat_size self g w)).
Proof.
  unfold stat_size, world_after, no_such_file, raise.
  destruct (lookup_entry w g) as [[content|]|]; apply effect_refl.
Qed.

Lemma unlink_effect (self : PDFDownloader) (f : string) (w : world) :
  effect f 0 w (world_after (unlink self f w)).
Proof.
  unfold unlink, world_after, no_such_file, raise.
  destruct (dir w) as [d|] eqn:Hd; simpl; [|apply effect_refl].
  destruct (d !! f) eqn:Hf; simpl; [|apply effect_refl].
  eapply same_but_update; [exact Hd|]. intros g Hg. by rewrite lookup_delete_ne.
Qed.

Lemma download_paper_effect (self : PDFDownloader) (paper : Paper) (w : world)
    (safe : string) :
  create_safe_filename env (default "Unknown"%string (title paper)) w = (w, Ret safe) ->
  effect (safe +:+ ".pdf") 2 w (world_after (download_paper env self paper w)).
Proof.
  intros Hname. set (f := safe +:+ ".pdf").
  unfold download_paper.
  destruct (negb (Py.truthy_opt (pdf_url paper)));
    [apply (effect_weaken f 0); [lia | apply effect_refl]|].
  assert (effect f 2 w
            (world_after (download_paper_try env self (default "Unknown"%string (title paper))
                            (default ""%string (pdf_url paper)) w))) as Htry.
  { unfold download_paper_try.
    apply (effect_bind f 0 2); [rewrite Hname; apply effect_refl|].
    intros safe' w1 Hsafe. rewrite Hname in Hsafe. injection Hsafe as <- <-. fold f.
    apply (effect_bind f 0 2); [apply effect_refl|]. intros there w1 _.
    destruct there; [apply (effect_weaken f 0); [lia | apply effect_refl]|].
    apply (effect_bind f 2 0); [apply fetch_effect|]. intros [early|r] w2 _;
      [apply effect_refl|].
    apply (effect_bind f 0 0); [apply save_effect|]. intros _ w3 _.
    apply (effect_bind f 0 0); [apply stat_size_effect|]. intros size w4 _.
    destruct (size <? 1024); [|apply effect_refl].
    apply (effect_bind f 0 0); [apply unlink_effect|]. intros _ w5 _.
    apply effect_refl. }
  unfold try_except, world_after in *.
  destruct (download_paper_try env self _ _ w) as [w1 [o|e]]; simpl in *; [exact Htry|].
  destruct (download_paper_except_returns (default "Unknown"%string (title paper)) e w1)
    as [msg ->]. exact Htry.
Qed.

(** X13. Whatever the server answers, a call of [download_paper] changes
    nothing in the download directory except possibly the file named after
    the paper: every other name keeps its entry, and a missing directory
    is not created. *)
Theorem download_paper_other_files (self : PDFDownloader) (paper : Paper) (w : world)
    (safe : string) :
  create_safe_filename env (default "Unknown"%string (title paper)) w = (w, Ret safe) ->
  same_but (safe +:+ ".pdf") w (world_after (download_paper env self paper w)).
Proof. intros Hname. by apply download_paper_effect. Qed.

(** X14. A call of [download_paper] only adds to the history of requests,
    and adds at most two of them, all GET requests: the one to [pdf_url]
    and, for an HTML answer, the one to the address found in the page. *)
Theorem download_paper_requests (self : PDFDownloader) (paper : Paper) (w : world) :
  exists gets,
    trace (world_after (download_paper env self paper w)) = trace w ++ gets /\
    Forall (fun e => is_get e = true) gets /\
    (length gets <= 2)%nat.
Proof.
  destruct (create_safe_filename_pure env (default "Unknown"%string (title paper)) w)
    as [safe Hname].
  exact (proj1 (download_paper_effect self paper w safe Hname)).
Qed.

(** ** The ways out of [download_paper] *)

(** X15. An HTML answer in which the scraper finds no link: when the file
    is not there yet, the address does not end in [.pdf], the content type
    of the answer mentions [text/html] and not [pdf], and the scraper
    returns nothing, the result is the failure "Could not find PDF link in
    HTML", after exactly one request and with the directory untouched. *)
Theorem download_paper_html_no_link (self : PDFDownloader) (paper : Paper) (w : world)
    (url safe html : string) (r : response) :
  pdf_url paper = Some url -> url <> ""%string ->
  create_safe_filename env (default "Unknown"%string (title paper)) w = (w, Ret safe) ->
  (forall content, lookup_entry w (safe +:+ ".pdf") <> Some (RegularFile content)) ->
  http_get env (trace w) url (timeout self) = Ret r ->
  status_error r = None ->
  Py.endswith ".pdf" url = false ->
  Py.contains "pdf" (Py.lower (default ""%string (header_content_type r))) = false ->
  Py.contains "text/html" (Py.lower (default ""%string (header_content_type r))) = true ->
  text r = Ret html ->
  Py.truthy_opt (extract_pdf_from_html env html url) = false ->
  download_paper env self paper w =
    (World (trace w ++ [EvGet url (timeout self)]) (dir w),
     Ret (false, None, "Could not find PDF link in HTML"%string)).
Proof.
  intros Hurl Hne Hname Hnew Hget Hstatus Hend Hpdf Hhtml Htext Hnone.
  unfold download_paper.
  replace (Py.truthy_opt (pdf_url paper)) with true
    by (symmetry; apply truthy_opt_true; eauto).
  rewrite Hurl. simpl.
  unfold try_except, download_paper_try, bind. rewrite Hname.
  unfold path_exists.
  destruct (lookup_entry w (safe +:+ ".pdf")) as [[content|]|] eqn:Hf;
    [by destruct (Hnew content) | |];
    unfold fetch, bind, session_get; rewrite Hget;
    unfold raise_for_status; rewrite Hstatus; simpl;
    rewrite Hpdf, Hend, Hhtml; simpl; unfold lift; rewrite Htext, Hnone; reflexivity.
Qed.

(** The returns of the body of the [try], told apart. *)
Lemma download_paper_try_returns (self : PDFDownloader) (title url safe : string)
    (w w' : world) (o : outcome) :
  create_safe_filename env title w = (w, Ret safe) ->
  download_paper_try env self title url w = (w', Ret o) ->
  let f := safe +:+ ".pdf" in
  (o = (true, Some (path_join self f), "Already exists: " +:+ f) /\ w' = w /\
     exists content, lookup_entry w f = Some (RegularFile content)) \/
  (o = (true, Some (path_join self f), "Downloaded: " +:+ f) /\
     (forall old, lookup_entry w f <> Some (RegularFile old)) /\
     exists content, lookup_entry w' f = Some (RegularFile content) /\
                     (1024 <= length content)%nat) \/
  o = (false, None, "Could not find PDF link in HTML"%string) \/
  o = (false, None, "Downloaded file too small (probably not a PDF)"%string).
Proof.
  intros Hname. unfold download_paper_try, bind. rewrite Hname. intros H.
  cbv zeta. set (f := safe +:+ ".pdf").
  unfold path_exists in H.
  destruct (lookup_entry w (safe +:+ ".pdf")) as [[content|]|] eqn:Hthere.
  { injection H as <- <-. left. fold f. eauto. }
  all: destruct (fetch env self url w) as [w1 [[early|r]|?]] eqn:Hfetch; try discriminate.
  all: try (injection H as <- <-; right; right; left;
            revert Hfetch; unfold fetch, bind, lift, ret; intros Hfetch;
            repeat match type of Hfetch with
                   | context [match ?x with _ => _ end] => destruct x eqn:?
                   end; congruence).
  all: destruct (save self _ r w1) as [w2 [[]|?]]; try discriminate.
  all: unfold stat_size in H.
  all: destruct (lookup_entry w2 (safe +:+ ".pdf")) as [[stored_bytes|]|] eqn:Hstored;
         try discriminate.
  all: destruct (Z.ltb_spec (Z.of_nat (length stored_bytes)) 1024) as [Hsmall|Hbig].
  all: try (destruct (unlink self _ w2) as [w3 [[]|?]]; try discriminate;
            injection H as <- <-; right; right; right; reflexivity).
  all: injection H as <- <-; right; left; fold f; split; [reflexivity|];
       (split; [intros old; fold f in Hthere; rewrite Hthere; discriminate|]);
       exists stored_bytes; split; [exact Hstored | lia].
Qed.

(** X16. Whenever [download_paper] reports success, the path it returns is
    the file named after the paper and that file is a regular file of the
    directory: either it was there before and nothing happened, or it was
    just written and holds at least 1024 bytes. *)
Theorem download_paper_success_stored (self : PDFDownloader) (paper : Paper) (w w' : world)
    (safe : string) (path : option string) (msg : string) :
  create_safe_filename env (default "Unknown"%string (title paper)) w = (w, Ret safe) ->
  download_paper env self paper w = (w', Ret (true, path, msg)) ->
  path = Some (path_join self (safe +:+ ".pdf")) /\
  exists content,
    lookup_entry w' (safe +:+ ".pdf") = Some (RegularFile content) /\
    ((msg = "Already exists: " +:+ (safe +:+ ".pdf") /\ w' = w) \/
     (msg = "Downloaded: " +:+ (safe +:+ ".pdf") /\ (1024 <= length content)%nat)).
Proof.
  intros Hname. unfold download_paper.
  destruct (negb (Py.truthy_opt (pdf_url paper))); [discriminate|].
  unfold try_except.
  destruct (download_paper_try env self _ _ w) as [w1 [o|e]] eqn:Htry.
  - intros [= -> ->].
    destruct (download_paper_try_returns self _ _ safe w w' _ Hname Htry)
      as [(Ho & -> & content & Hc)|[(Ho & _ & content & Hc & Hlen)|[Ho|Ho]]];
      try discriminate; injection Ho as <- <-; (split; [reflexivity|]);
      exists content; split; auto.
  - destruct e; simpl; discriminate.
Qed.

Lemma download_paper_after_success (self : PDFDownloader) (paper : Paper) (w w' : world)
    (path : option string) (msg : string) :
  sanitized_title (default "Unknown"%string (title paper)) <> ""%string ->
  download_paper env self paper w = (w', Ret (true, path, msg)) ->
  let f := sanitized_title (default "Unknown"%string (title paper)) +:+ ".pdf" in
  download_paper env self paper w' =
    (w', Ret (true, Some (path_join self f), "Already exists: " +:+ f)).
Proof.
  intros Hsafe Hrun f.
  assert (forall w0, create_safe_filename env (default "Unknown"%string (title paper)) w0
                     = (w0, Ret (sanitized_title (default "Unknown"%string (title paper)))))
    as Hname.
  { intros w0. rewrite create_safe_filename_eq.
    apply truthy_true in Hsafe. by rewrite Hsafe. }
  assert (Py.truthy_opt (pdf_url paper) = true) as Hurl.
  { unfold download_paper in Hrun.
    destruct (Py.truthy_opt (pdf_url paper)); [reflexivity | discriminate]. }
  assert (exists content, lookup_entry w' f = Some (RegularFile content)) as [content Hc].
  { unfold download_paper in Hrun. rewrite Hurl in Hrun. simpl in Hrun.
    unfold try_except in Hrun.
    destruct (download_paper_try env self _ _ w) as [w1 [o|e]] eqn:Htry.
    - injection Hrun as -> ->.
      destruct (download_paper_try_returns self _ _ _ w w' _ (Hname w) Htry)
        as [(_ & -> & content & Hc)|[(_ & _ & content & Hc & _)|[Ho|Ho]]];
        try discriminate; eauto.
    - destruct e; simpl in Hrun; discriminate. }
  exact (download_paper_existing env self paper w' _ content Hurl (Hname w') Hc).
Qed.

(** X17. After a call of [download_paper] that reported success, for a
    paper whose title leaves a file name after sanitizing, the same call
    again answers "Already exists" for that file and changes nothing: no
    request, no write. *)
Theorem download_paper_twice (self : PDFDownloader) (paper : Paper) (w w' : world)
    (path : option string) (msg : string) :
  sanitized_title (default "Unknown"%string (title paper)) <> ""%string ->
  download_paper env self paper w = (w', Ret (true, path, msg)) ->
  download_paper env self paper w' =
    (w', Ret (true,
              Some (path_join self
                      (sanitized_title (default "Unknown"%string (title paper)) +:+ ".pdf")),
              "Already exists: " +:+
                (sanitized_title (default "Unknown"%string (title paper)) +:+ ".pdf"))).
Proof. apply download_paper_after_success. Qed.

(** X18. A stream that ends well with at least 1024 bytes, for a file name
    without a null character that the directory does not have yet: the
    result is the success "Downloaded: <filename>" with the path of the
    file, and the file holds exactly the bytes of the chunks, in order. *)
Theorem download_paper_stores_body (self : PDFDownloader) (paper : Paper) (w w1 : world)
    (url safe : string) (d : gmap string dir_entry) (r : response) :
  pdf_url paper = Some url -> url <> ""%string ->
  create_safe_filename env (default "Unknown"%string (title paper)) w = (w, Ret safe) ->
  Py.has_null (path_join self (safe +:+ ".pdf")) = false ->
  dir w = Some d -> d !! (safe +:+ ".pdf") = None ->
  fetch env self url w = (w1, Ret (inr r)) ->
  stream_error r = None ->
  (1024 <= length (concat (chunks r)))%nat ->
  download_paper env self paper w =
    (World (trace w1) (Some (<[safe +:+ ".pdf" := RegularFile (concat (chunks r))]> d)),
     Ret (true, Some (path_join self (safe +:+ ".pdf")), "Downloaded: " +:+ (safe +:+ ".pdf"))).
Proof.
  intros Hurl Hne Hname Hnull Hdir Hnew Hfetch Hstream Hbig.
  pose proof (fetch_dir env self url w w1 _ Hfetch) as Hdir1. rewrite Hdir in Hdir1.
  unfold download_paper.
  replace (Py.truthy_opt (pdf_url paper)) with true
    by (symmetry; apply truthy_opt_true; eauto).
  rewrite Hurl. simpl.
  unfold try_except, download_paper_try, bind.
  rewrite Hname. unfold path_exists, lookup_entry at 1. rewrite Hdir. simpl. rewrite Hnew.
  rewrite Hfetch.
  destruct w1 as [tr1 d1]. simpl in Hdir1. subst d1.
  rewrite save_complete by assumption.
  unfold stat_size, lookup_entry. simpl. rewrite lookup_insert_eq.
  replace (Z.of_nat (length (concat (chunks r))) <? 1024) with false
    by (symmetry; apply Z.ltb_ge; lia).
  reflexivity.
Qed.

Lemma length_append (s t : string) :
  String.length (s +:+ t) = (String.length s + String.length t)%nat.
Proof. induction s as [|c s IH]; simpl; [reflexivity | by rewrite IH]. Qed.

Lemma length_take (n : nat) (s : string) : (String.length (Py.take n s) <= n)%nat.
Proof. unfold Py.take. rewrite length_str, length_firstn. lia. Qed.

(** X19. A failure of [download_paper] never carries a path, and its
    message has at most 71 characters, whatever the title and however long
    the text of the exception: the handlers cut the title at 30 and the
    text at 50 characters. *)
Theorem download_paper_failure_message (self : PDFDownloader) (paper : Paper) (w w' : world)
    (path : option string) (msg : string) :
  download_paper env self paper w = (w', Ret (false, path, msg)) ->
  path = None /\ (String.length msg <= 71)%nat.
Proof.
  unfold download_paper.
  destruct (negb (Py.truthy_opt (pdf_url paper))).
  { intros [= <- <- <-]. split; [reflexivity | simpl; lia]. }
  unfold try_except.
  destruct (download_paper_try env self _ _ w) as [w1 [o|e]] eqn:Htry.
  - intros [= -> ->].
    destruct (create_safe_filename_pure env (default "Unknown"%string (title paper)) w)
      as [safe Hname].
    destruct (download_paper_try_returns self _ _ safe w w' _ Hname Htry)
      as [(Ho & _)|[(Ho & _)|[Ho|Ho]]]; try discriminate;
      injection Ho as -> ->; (split; [reflexivity | simpl; lia]).
  - destruct e as [m|m|m]; simpl; unfold ret; intros [= <- <- <-];
      (split; [reflexivity|]); rewrite !length_append.
    + pose proof (length_take 30 (default "Unknown"%string (title paper))). simpl. lia.
    + pose proof (length_take 50 m). simpl. lia.
    + pose proof (length_take 50 m). simpl. lia.
Qed.

(** ** The batch *)

Section WithCallback.
Context {CB : Type}.
Context (progress_callback : option (Z -> Z -> DownloadResult -> CB -> CB * exc unit)).






End WithCallback.

End WithEnvironment.

(** ** The statistics *)

Section Statistics.

Lemma stat_all_world (self : PDFDownloader) (names : list string) (w : world) :
  world_after (stat_all self names w) = w.
Proof.
  induction names as [|f names IH]; simpl; [reflexivity|].
  unfold bind, stat_size, world_after, no_such_file, raise in *.
  destruct (lookup_entry w f) as [[content|]|]; try reflexivity.
  destruct (stat_all self names w) as [w1 [sizes|e]]; simpl in *; exact IH.
Qed.

Lemma stat_all_sizes (self : PDFDownloader) (names : list string) (w : world)
    (d : gmap string dir_entry) :
  dir w = Some d ->
  Forall (regular_in d) names ->
  stat_all self names w = (w, Ret (map (size_in d) names)).
Proof.
  intros Hd. induction 1 as [|f names [content Hf] _ IH]; simpl; [reflexivity|].
  unfold bind, stat_size, lookup_entry. rewrite Hd. simpl. rewrite Hf, IH.
  unfold size_in. rewrite Hf. reflexivity.
Qed.

Lemma elem_of_glob_pdf (d : gmap string dir_entry) (f : string) :
  f ∈ glob_pdf d <-> is_Some (d !! f) /\ Py.endswith ".pdf" f = true.
Proof.
  unfold glob_pdf. rewrite list_elem_of_In, filter_In, <- list_elem_of_In.
  rewrite list_elem_of_fmap. split.
  - intros [([g x] & -> & Hin) Hend]. apply elem_of_map_to_list in Hin.
    split; [eauto | exact Hend].
  - intros [[x Hx] Hend]. split; [|exact Hend].
    exists (f, x). split; [reflexivity | by apply elem_of_map_to_list].
Qed.

Lemma NoDup_glob_pdf (d : gmap string dir_entry) : NoDup (glob_pdf d).
Proof.
  unfold glob_pdf. apply NoDup_ListNoDup, List.NoDup_filter, NoDup_ListNoDup.
  apply NoDup_fst_map_to_list.
Qed.

Lemma get_download_stats_healthy (self : PDFDownloader) (w : world)
    (d : gmap string dir_entry) :
  dir w = Some d ->
  Forall (regular_in d) (glob_pdf d) ->
  get_download_stats self w =
    (w, Ret [ ("total_files"%string, VInt (Z.of_nat (length (glob_pdf d))));
              ("total_size"%string, VInt (foldr Z.add 0 (map (size_in d) (glob_pdf d))));
              ("total_size_mb"%string,
               VFloat (round2_div (foldr Z.add 0 (map (size_in d) (glob_pdf d))) (1024 * 1024)));
              ("files"%string, VNames (glob_pdf d)) ]).
Proof.
  intros Hd Hreg. unfold get_download_stats, bind, dir_exists. cbn beta iota.
  rewrite Hd. simpl. rewrite Hd. simpl.
  rewrite (stat_all_sizes self (glob_pdf d) w d Hd Hreg). reflexivity.
Qed.

(** X21. In a directory whose [*.pdf] names are all regular files,
    [get_download_stats] changes nothing and reports: as [files] the names
    of the directory that end in [.pdf], each once and no other; as
    [total_files] their number; as [total_size] the sum of their sizes. *)
Theorem get_download_stats_counts (self : PDFDownloader) (w : world)
    (d : gmap string dir_entry) :
  dir w = Some d ->
  Forall (regular_in d) (glob_pdf d) ->
  exists names,
    get_download_stats self w =
      (w, Ret [ ("total_files"%string, VInt (Z.of_nat (length names)));
                ("total_size"%string, VInt (foldr Z.add 0 (map (size_in d) names)));
                ("total_size_mb"%string,
                 VFloat (round2_div (foldr Z.add 0 (map (size_in d) names)) (1024 * 1024)));
                ("files"%string, VNames names) ]) /\
    NoDup names /\
    (forall f, f ∈ names <-> is_Some (d !! f) /\ Py.endswith ".pdf" f = true).
Proof.
  intros Hd Hreg. exists (glob_pdf d).
  split; [by apply get_download_stats_healthy|].
  split; [apply NoDup_glob_pdf | apply elem_of_glob_pdf].
Qed.

(** X22. Whatever [get_download_stats] returns has the key [total_files]
    with a count that is not negative, and whenever that count is positive
    it also has [total_size_mb] and [files], with as many names as the
    count says: a caller that looks at [total_files] first never misses a
    key.  The call itself leaves the world as it is, even when it raises. *)
Theorem get_download_stats_keys (self : PDFDownloader) (w : world) :
  world_after (get_download_stats self w) = w /\
  (forall stats, returned (get_download_stats self w) = Some stats ->
     exists n, dict_get stats "total_files" = Some (VInt n) /\ 0 <= n /\
       (0 < n -> exists mb names,
           dict_get stats "total_size_mb" = Some (VFloat mb) /\
           dict_get stats "files" = Some (VNames names) /\
           Z.of_nat (length names) = n)).
Proof.
  unfold get_download_stats, bind, dir_exists. cbn beta iota.
  destruct (dir w) as [d|] eqn:Hd; simpl.
  - rewrite Hd. simpl.
    pose proof (stat_all_world self (glob_pdf d) w) as Hw. unfold world_after in *.
    destruct (stat_all self (glob_pdf d) w) as [w1 [sizes|e]]; simpl in *;
      (split; [exact Hw|]); [|discriminate].
    intros stats [= <-]. eexists. split; [reflexivity|]. split; [lia|].
    intros _. eexists _, _. repeat split; reflexivity.
  - split; [reflexivity|]. intros stats [= <-].
    exists 0. split; [reflexivity|]. split; lia.
Qed.

End Statistics.

(** ** A download, then the statistics *)

Section DownloadThenStatistics.
Context (env : environment).

Lemma starts_with_app (p l : list ascii) : Py.starts_with p (p ++ l) = true.
Proof.
  induction p as [|c p IH]; simpl; [reflexivity|].
  by rewrite Ascii.eqb_refl, IH.
Qed.

Lemma endswith_append (s suffix : string) : Py.endswith suffix (s +:+ suffix) = true.
Proof.
  unfold Py.endswith. rewrite chars_app, rev_app_distr. apply starts_with_app.
Qed.

Lemma filter_Permutation {A} (p : A -> bool) (l l' : list A) :
  Permutation l l' -> Permutation (List.filter p l) (List.filter p l').
Proof.
  induction 1 as [|x l l' _ IH|x y l|l l' l'' _ IH1 _ IH2]; simpl.
  - constructor.
  - destruct (p x); [by constructor | exact IH].
  - destruct (p x), (p y); try reflexivity. apply perm_swap.
  - by etransitivity.
Qed.

Lemma sum_Permutation (l l' : list Z) :
  Permutation l l' -> foldr Z.add 0 l = foldr Z.add 0 l'.
Proof.
  induction 1 as [|x l l' _ IH|x y l|l l' l'' _ IH1 _ IH2]; simpl; lia.
Qed.

Lemma glob_pdf_insert (d : gmap string dir_entry) (f : string) (x : dir_entry) :
  d !! f = None -> Py.endswith ".pdf" f = true ->
  Permutation (glob_pdf (<[f := x]> d)) (f :: glob_pdf d).
Proof.
  intros Hnew Hend. unfold glob_pdf.
  pose proof (map_to_list_insert d f x Hnew) as Hperm.
  apply (Permutation_map fst), (filter_Permutation (Py.endswith ".pdf")) in Hperm.
  simpl in Hperm. rewrite Hend in Hperm. exact Hperm.
Qed.

(** X23. A download that reported "Downloaded: <filename>" into a
    directory whose [*.pdf] names are all regular files shows in the
    statistics taken afterwards: one file more, the size larger by the
    length of the stored file, and the new name among [files]. *)
Theorem stats_after_download (self : PDFDownloader) (paper : Paper) (w w' : world)
    (safe : string) (d : gmap string dir_entry) (path : option string) :
  create_safe_filename env (default "Unknown"%string (title paper)) w = (w, Ret safe) ->
  dir w = Some d ->
  Forall (regular_in d) (glob_pdf d) ->
  download_paper env self paper w =
    (w', Ret (true, path, "Downloaded: " +:+ (safe +:+ ".pdf"))) ->
  exists (n size : Z) (content : list Byte.byte) (names' : list string) stats stats',
    returned (get_download_stats self w) = Some stats /\
    returned (get_download_stats self w') = Some stats' /\
    lookup_entry w' (safe +:+ ".pdf") = Some (RegularFile content) /\
    dict_get stats "total_files" = Some (VInt n) /\
    dict_get stats' "total_files" = Some (VInt (n + 1)) /\
    dict_get stats "total_size" = Some (VInt size) /\
    dict_get stats' "total_size" = Some (VInt (size + Z.of_nat (length content))) /\
    dict_get stats' "files" = Some (VNames names') /\
    safe +:+ ".pdf" ∈ names'.
Proof.
  intros Hname Hd Hreg Hrun. set (f := safe +:+ ".pdf") in *.
  pose proof (download_paper_effect env self paper w safe Hname) as [_ [Hsome Hsame]].
  fold f in Hsame. rewrite Hrun in Hsome, Hsame. simpl in Hsome, Hsame.
  assert ((forall old, lookup_entry w f <> Some (RegularFile old)) /\
          exists content, lookup_entry w' f = Some (RegularFile content)) as [Hold [content Hc]].
  { unfold download_paper in Hrun.
    destruct (negb (Py.truthy_opt (pdf_url paper))); [discriminate|].
    unfold try_except in Hrun.
    destruct (download_paper_try env self _ _ w) as [w1 [o|e]] eqn:Htry.
    - injection Hrun as -> ->.
      destruct (download_paper_try_returns env self _ _ safe w w' _ Hname Htry)
        as [(Ho & _)|[(_ & Hold & content & Hc & _)|[Ho|Ho]]].
      + exfalso. injection Ho as _ Ho. simpl in Ho. discriminate.
      + fold f in Hold, Hc. eauto.
      + discriminate.
      + discriminate.
    - destruct e; simpl in Hrun; discriminate. }
  assert (Py.endswith ".pdf" f = true) as Hend by apply endswith_append.
  assert (d !! f = None) as Hnew.
  { destruct (d !! f) as [[old|]|] eqn:Hf; [| |reflexivity].
    - destruct (Hold old). unfold lookup_entry. rewrite Hd. exact Hf.
    - assert (f ∈ glob_pdf d) as Hin by (apply elem_of_glob_pdf; eauto).
      rewrite Forall_forall in Hreg. destruct (Hreg f Hin) as [c Hc']. congruence. }
  destruct (dir w') as [d'|] eqn:Hd'; [|rewrite Hd in Hsome; destruct Hsome as [_ Hs];
                                        destruct Hs as [? ?]; [eauto | discriminate]].
  assert (d' = <[f := RegularFile content]> d) as ->.
  { apply map_eq. intros g. destruct (decide (g = f)) as [->|Hg].
    - rewrite lookup_insert_eq. unfold lookup_entry in Hc. rewrite Hd' in Hc. exact Hc.
    - rewrite lookup_insert_ne by congruence.
      specialize (Hsame g Hg). unfold lookup_entry in Hsame.
      rewrite Hd, Hd' in Hsame. exact Hsame. }
  pose proof (glob_pdf_insert d f (RegularFile content) Hnew Hend) as Hperm.
  assert (forall g, g ∈ glob_pdf d ->
            size_in (<[f := RegularFile content]> d) g = size_in d g) as Hsizes.
  { intros g Hg. apply elem_of_glob_pdf in Hg as [[x Hx] _].
    unfold size_in. rewrite lookup_insert_ne by congruence. reflexivity. }
  assert (Forall (regular_in (<[f := RegularFile content]> d))
            (glob_pdf (<[f := RegularFile content]> d))) as Hreg'.
  { rewrite Hperm. constructor.
    - exists content. apply lookup_insert_eq.
    - apply Forall_forall. intros g Hg. rewrite Forall_forall in Hreg.
      destruct (Hreg g Hg) as [c Hgc]. exists c.
      rewrite lookup_insert_ne by congruence. exact Hgc. }
  exists (Z.of_nat (length (glob_pdf d))),
         (foldr Z.add 0 (map (size_in d) (glob_pdf d))),
         content, (glob_pdf (<[f := RegularFile content]> d)).
  eexists _, _.
  split; [rewrite (get_download_stats_healthy self w d Hd Hreg); reflexivity|].
  split; [rewrite (get_download_stats_healthy self w' _ Hd' Hreg'); reflexivity|].
  split; [exact Hc|]. split; [reflexivity|].
  split; [simpl; rewrite (Permutation_length Hperm); simpl; do 2 f_equal; lia|].
  split; [reflexivity|].
  split.
  - simpl. do 2 f_equal.
    rewrite (sum_Permutation _ _ (Permutation_map _ Hperm)). simpl.
    unfold size_in at 1. rewrite lookup_insert_eq.
    rewrite (map_ext_in _ (size_in d)); [lia|].
    intros g Hg. apply Hsizes, list_elem_of_In, Hg.
  - split; [reflexivity|]. rewrite Hperm. apply elem_of_cons. by left.
Qed.

End DownloadThenStatistics.

(** ** The theorems at work *)

Import Fixtures Samples.

Lemma create_safe_filename_safe_witness :
  (String.length "ab_cd._" <= 100)%nat /\
  Forall filename_char (Py.chars "ab_cd._") /\
  (forall c, last (Py.chars "ab_cd._") = Some c -> c <> "."%char).
Proof.
  destruct (create_safe_filename_safe served " a<b>: c/d.  . " empty_dir)
    as (safe & Hrun & _ & Hshape & _).
  assert (sanitized_title " a<b>: c/d.  . " = "ab_cd._"%string) as Hs by reflexivity.
  rewrite Hs in Hshape. destruct Hshape as (-> & Hrest); [discriminate | exact Hrest].
Defined.

Lemma download_paper_other_files_witness :
  lookup_entry (world_after (download_paper served downloader full_paper survey_stored))
               "Survey.pdf"
    = lookup_entry survey_stored "Survey.pdf".
Proof.
  apply (download_paper_other_files served downloader full_paper survey_stored "Full");
    [reflexivity | discriminate].
Defined.

Lemma download_paper_html_no_link_witness :
  download_paper served downloader page_paper empty_dir =
    (World (trace empty_dir ++ [EvGet "https://example.org/page" (timeout downloader)])
           (dir empty_dir),
     Ret (false, None, "Could not find PDF link in HTML"%string)).
Proof.
  apply (download_paper_html_no_link served downloader page_paper empty_dir
           "https://example.org/page" "Page"
           "<html><body>No paper here.</body></html>" html_response);
    try reflexivity; [discriminate | intros content; discriminate].
Defined.

Lemma download_paper_success_stored_witness :
  Some "downloads/Full.pdf"%string = Some (path_join downloader ("Full" +:+ ".pdf")) /\
  exists content,
    lookup_entry full_stored ("Full" +:+ ".pdf") = Some (RegularFile content) /\
    (("Downloaded: Full.pdf"%string = "Already exists: " +:+ ("Full" +:+ ".pdf") /\
      full_stored = empty_dir) \/
     ("Downloaded: Full.pdf"%string = "Downloaded: " +:+ ("Full" +:+ ".pdf") /\
      (1024 <= length content)%nat)).
Proof.
  apply (download_paper_success_stored served downloader full_paper empty_dir);
    reflexivity.
Defined.

Lemma download_paper_twice_witness :
  download_paper served downloader full_paper full_stored =
    (full_stored, Ret (true, Some "downloads/Full.pdf"%string,
                       "Already exists: Full.pdf"%string)).
Proof.
  apply (download_paper_twice served downloader full_paper empty_dir full_stored
           (Some "downloads/Full.pdf"%string) "Downloaded: Full.pdf");
    [discriminate | reflexivity].
Defined.

Lemma download_paper_stores_body_witness :
  download_paper served downloader full_paper empty_dir =
    (World [EvGet "https://example.org/full.pdf" 30]
           (Some (<["Full" +:+ ".pdf" := RegularFile (concat (chunks full_response))]> ∅)),
     Ret (true, Some (path_join downloader ("Full" +:+ ".pdf")),
          "Downloaded: " +:+ ("Full" +:+ ".pdf"))).
Proof.
  apply (download_paper_stores_body served downloader full_paper empty_dir
           (World [EvGet "https://example.org/full.pdf" 30] (Some ∅))
           "https://example.org/full.pdf" "Full" ∅ full_response);
    try reflexivity; discriminate.
Defined.

Lemma download_paper_failure_message_witness :
  (None : option string) = None /\
  (String.length "Timeout downloading: A title of more than thirty ch..." <= 71)%nat.
Proof.
  apply (download_paper_failure_message served downloader
           (at_url "A title of more than thirty characters" "https://example.org/slow.pdf")
           empty_dir (World [EvGet "https://example.org/slow.pdf" 30] (Some ∅))).
  reflexivity.
Defined.


Lemma get_download_stats_counts_witness :
  exists names,
    get_download_stats downloader with_notes =
      (with_notes,
       Ret [ ("total_files"%string, VInt (Z.of_nat (length names)));
             ("total_size"%string,
              VInt (foldr Z.add 0
                      (map (size_in (<[ "notes.txt"%string := RegularFile stored ]>
                                       {[ "Survey.pdf"%string := RegularFile stored ]})) names)));
             ("total_size_mb"%string,
              VFloat (round2_div
                        (foldr Z.add 0
                           (map (size_in (<[ "notes.txt"%string := RegularFile stored ]>
                                            {[ "Survey.pdf"%string := RegularFile stored ]}))
                                names))
                        (1024 * 1024)));
             ("files"%string, VNames names) ]) /\
    NoDup names /\
    (forall f, f ∈ names <->
       is_Some ((<[ "notes.txt"%string := RegularFile stored ]>
                   {[ "Survey.pdf"%string := RegularFile stored ]} : gmap string dir_entry) !! f)
       /\ Py.endswith ".pdf" f = true).
Proof.
  apply (get_download_stats_counts downloader with_notes); [reflexivity|].
  assert (glob_pdf (<[ "notes.txt"%string := RegularFile stored ]>
                      {[ "Survey.pdf"%string := RegularFile stored ]})
          = ["Survey.pdf"%string]) as -> by reflexivity.
  constructor; [|constructor]. exists stored. reflexivity.
Defined.

Example get_download_stats_ignores_notes :
  returned (get_download_stats downloader with_notes)
    = Some [ ("total_files"%string, VInt 1); ("total_size"%string, VInt 4);
             ("total_size_mb"%string, VFloat 0); ("files"%string, VNames ["Survey.pdf"%string]) ].
Proof. reflexivity. Qed.

Lemma get_download_stats_keys_witness :
  exists n,
    dict_get [ ("total_files"%string, VInt 1); ("total_size"%string, VInt 4);
               ("total_size_mb"%string, VFloat 0);
               ("files"%string, VNames ["Survey.pdf"%string]) ] "total_files"
      = Some (VInt n) /\ 0 <= n /\
    (0 < n -> exists mb names,
        dict_get [ ("total_files"%string, VInt 1); ("total_size"%string, VInt 4);
                   ("total_size_mb"%string, VFloat 0);
                   ("files"%string, VNames ["Survey.pdf"%string]) ] "total_size_mb"
          = Some (VFloat mb) /\
        dict_get [ ("total_files"%string, VInt 1); ("total_size"%string, VInt 4);
                   ("total_size_mb"%string, VFloat 0);
                   ("files"%string, VNames ["Survey.pdf"%string]) ] "files"
          = Some (VNames names) /\
        Z.of_nat (length names) = n).
Proof.
  apply (proj2 (get_download_stats_keys downloader survey_stored)). reflexivity.
Defined.

Lemma stats_after_download_witness :
  exists (n size : Z) (content : list Byte.byte) (names' : list string) stats stats',
    returned (get_download_stats downloader empty_dir) = Some stats /\
    returned (get_download_stats downloader full_stored) = Some stats' /\
    lookup_entry full_stored ("Full" +:+ ".pdf") = Some (RegularFile content) /\
    dict_get stats "total_files" = Some (VInt n) /\
    dict_get stats' "total_files" = Some (VInt (n + 1)) /\
    dict_get stats "total_size" = Some (VInt size) /\
    dict_get stats' "total_size" = Some (VInt (size + Z.of_nat (length content))) /\
    dict_get stats' "files" = Some (VNames names') /\
    "Full" +:+ ".pdf" ∈ names'.
Proof.
  apply (stats_after_download served downloader full_paper empty_dir full_stored "Full" ∅
           (Some "downloads/Full.pdf"%string));
    [reflexivity | reflexivity | | reflexivity].
  assert (glob_pdf (∅ : gmap string dir_entry) = []) as -> by reflexivity.
  constructor.
Defined.

Example stats_after_download_numbers :
  returned (get_download_stats downloader full_stored)
    = Some [ ("total_files"%string, VInt 1); ("total_size"%string, VInt 1024);
             ("total_size_mb"%string, VFloat 0); ("files"%string, VNames ["Full.pdf"%string]) ].
Proof. reflexivity. Qed.

End PdfDownloaderMore.
